(** * Admission webhooks of the AI gateway operator

    A shallow embedding of the validating and defaulting webhooks in
    [internal/webhook/v1alpha1] (AiGateway, ModelRouter, AiGatewayClass,
    ModelRouterClass), together with the small part of the Go runtime they
    rely on: [strings.Cut], the [fmt] verbs that occur in the error
    messages, and the error values of [errors], [fmt] and
    [k8s.io/apimachinery/pkg/util/validation/field].

    Go strings are byte sequences and are modelled by [string]; [int32] is
    modelled by [Z]; a Go map that may be [nil] is an [option (gmap _ _)];
    a [runtime.Object] is a tagged union of the kinds of the API group.
    Logging is not modelled. *)

From Stdlib Require Import ZArith Ascii String DecimalString.
From stdpp Require Import base option list strings gmap.

Local Open Scope Z_scope.

(** stdpp keeps [simpl] from unfolding string concatenation; the proofs
    below compute with it. *)
#[local] Arguments String.append !s1 s2 : simpl nomatch.

(** ** Strings *)

Module strings.

(** [strings.HasPrefix(s, prefix)] *)
Fixpoint HasPrefix (s prefix : string) : bool :=
  match prefix, s with
  | EmptyString, _ => true
  | String _ _, EmptyString => false
  | String p prefix', String c s' =>
      if Ascii.eqb c p then HasPrefix s' prefix' else false
  end.

(** [strings.Index(s, substr)]: the index of the first instance of
    [substr] in [s], or -1. *)
Fixpoint Index (s substr : string) : Z :=
  if HasPrefix s substr then 0
  else match s with
       | EmptyString => -1
       | String _ s' =>
           let i := Index s' substr in
           if i <? 0 then -1 else i + 1
       end.

(** [strings.Contains(s, substr)] is [Index(s, substr) >= 0]. *)
Definition Contains (s substr : string) : bool := 0 <=? Index s substr.

(** The slice expression [s[lo:hi]] for [0 <= lo <= hi <= len(s)]. *)
Definition slice (s : string) (lo hi : Z) : string :=
  String.substring (Z.to_nat lo) (Z.to_nat (hi - lo)) s.

Definition len (s : string) : Z := Z.of_nat (String.length s).

(** [strings.Cut(s, sep)] *)
Definition Cut (s sep : string) : string * string * bool :=
  let i := Index s sep in
  if 0 <=? i then (slice s 0 i, slice s (i + len sep) (len s), true)
  else (s, "", false).

End strings.

(** ** Formatting *)

Module strconv.

Definition lowerhex : string := "0123456789abcdef".

Definition hexDigit (n : Z) : string :=
  String.substring (Z.to_nat n) 1 lowerhex.

Definition backslash : ascii := ascii_of_N 92.
Definition dquote : ascii := ascii_of_N 34.

(** The text [strconv.Quote] emits for a rune below [utf8.RuneSelf]
    (appendEscapedRune with the double quote as the quote character). *)
Definition escapeASCII (c : ascii) : string :=
  let r := Z.of_N (N_of_ascii c) in
  if (r =? 34) || (r =? 92) then String backslash (String c "")
  else if (32 <=? r) && (r <=? 126) then String c ""
  else if r =? 7 then String backslash "a"
  else if r =? 8 then String backslash "b"
  else if r =? 12 then String backslash "f"
  else if r =? 10 then String backslash "n"
  else if r =? 13 then String backslash "r"
  else if r =? 9 then String backslash "t"
  else if r =? 11 then String backslash "v"
  else String backslash "x" +:+ hexDigit (Z.shiftr r 4) +:+ hexDigit (Z.land r 15).

Fixpoint drop (n : nat) (s : string) : string :=
  match n, s with
  | S n', String _ s' => drop n' s'
  | _, _ => s
  end.

Section Quote.
(** What [strconv.Quote] does with a rune that is not ASCII depends on
    UTF-8 decoding and on the Unicode tables behind [strconv.IsPrint].
    For a string that starts with a byte >= 0x80, [escapeRune] gives the
    text emitted for its first rune and the width of that rune in
    bytes. *)
Variable escapeRune : string -> string * nat.

(** The loop of [Quote] over the runes of [s]. Each turn takes at least
    one byte off [s], and [fuel] bounds the number of turns. *)
Fixpoint appendQuoted (fuel : nat) (s : string) : string :=
  match fuel, s with
  | S fuel', String c s' =>
      if Z.of_N (N_of_ascii c) <? 128
      then escapeASCII c +:+ appendQuoted fuel' s'
      else let '(out, width) := escapeRune s in
           out +:+ appendQuoted fuel' (drop width s)
  | _, _ => ""
  end.

(** [strconv.Quote(s)], which is what the verb [%q] prints for a string. *)
Definition Quote (s : string) : string :=
  String dquote (appendQuoted (String.length s) s +:+ String dquote "").
End Quote.

(** [strconv.Itoa], which is what [%d] prints. *)
Definition Itoa (i : Z) : string := NilEmpty.string_of_int (Z.to_int i).

End strconv.

(** ** Error values *)

Module field.

(** [field.Path]: a root name, child names and map keys. *)
Inductive Path :=
| Root (name : string)
| Child (parent : Path) (name : string)
| Key (parent : Path) (key : string).

Definition NewPath (name : string) (moreNames : list string) : Path :=
  fold_left Child moreNames (Root name).

Fixpoint String (p : Path) : string :=
  match p with
  | Root n => n
  | Child parent n => String parent +:+ "." +:+ n
  | Key parent k => String parent +:+ "[" +:+ k +:+ "]"
  end.

(** [field.Error] as built by [field.Invalid] with a string value. *)
Record Error := Invalid {
  Field : Path;
  BadValue : string;
  Detail : string
}.

Definition ErrorList := list Error.

Section Rendering.
Variable escapeRune : string -> string * nat.

(** The method [ErrorBody] of a [field.Error] of type
    [ErrorTypeInvalid] whose value is a string. *)
Definition ErrorBody (e : Error) : string :=
  let s := "Invalid value" +:+ ": " +:+ strconv.Quote escapeRune (BadValue e) in
  if String.eqb (Detail e) "" then s else s +:+ ": " +:+ Detail e.

(** The method [Error] of a [field.Error]. *)
Definition Error_ (e : Error) : string :=
  String (Field e) +:+ ": " +:+ ErrorBody e.
End Rendering.

End field.

(** A Go [error] value, as far as the webhooks build or forward one:
    [errors.New] and [fmt.Errorf] without [%w] give an [errorString],
    [fmt.Errorf] with [%w] a [wrapError], and [field.ErrorList.ToAggregate]
    an [Aggregate]. The failure of a listing call is any such value. *)
Inductive error :=
| errorString (s : string)
| wrapError (msg : string) (err : error)
| Aggregate (errs : list field.Error).

(** [field.ErrorList.ToAggregate] on a list that is not empty. The library
    drops errors whose message repeats an earlier one; here the list is
    kept whole and the repetitions are dropped when the message is
    rendered, which gives the same message. *)
Definition ToAggregate (list : field.ErrorList) : error := Aggregate list.

Module errors.

Definition New (text : string) : error := errorString text.

(** [errors.Unwrap] *)
Definition Unwrap (e : error) : option error :=
  match e with
  | wrapError _ err => Some err
  | _ => None
  end.

Section Rendering.
Variable escapeRune : string -> string * nat.

(** The messages of an aggregate, each one once, in order. *)
Fixpoint visit (seen : list string) (errs : list field.Error) : list string :=
  match errs with
  | [] => []
  | e :: rest =>
      let msg := field.Error_ escapeRune e in
      if existsb (String.eqb msg) seen then visit seen rest
      else msg :: visit (msg :: seen) rest
  end.

(** The method [Error()] of an error value. *)
Definition Error (e : error) : string :=
  match e with
  | errorString s => s
  | wrapError msg _ => msg
  | Aggregate [] => ""
  | Aggregate [e] => field.Error_ escapeRune e
  | Aggregate errs =>
      match visit [] errs with
      | [msg] => msg
      | msgs => "[" +:+ String.concat ", " msgs +:+ "]"
      end
  end.
End Rendering.

End errors.

Module fmt.

(** The verbs that occur in the webhooks' format strings. *)
Definition d (i : Z) : string := strconv.Itoa i.
Definition s (x : string) : string := x.
Definition q (escapeRune : string -> string * nat) (x : string) : string :=
  strconv.Quote escapeRune x.

(** [fmt.Errorf] with a format that has no [%w]. *)
Definition Errorf (msg : string) : error := errorString msg.

(** [fmt.Errorf(prefix + "%w", err)] for a [prefix] without verbs: the
    message ends in the message of [err], and [err] is what the result
    unwraps to. *)
Definition Errorf_w (escapeRune : string -> string * nat)
    (prefix : string) (err : error) : error :=
  wrapError (prefix +:+ errors.Error escapeRune err) err.

End fmt.

(** ** API types *)

Module metav1.

(** The fields of [metav1.ObjectMeta] the webhooks can observe. *)
Record ObjectMeta := {
  Name : string;
  Namespace : string;
  Annotations : option (gmap string string)
}.

Definition GetName (m : ObjectMeta) : string := Name m.
Definition GetAnnotations (m : ObjectMeta) : option (gmap string string) :=
  Annotations m.

End metav1.

(** The index expression [m[key]] on a [map[string]string]: the zero value
    when the key is absent, and also when the map is [nil]. *)
Definition mapIndex (m : option (gmap string string)) (key : string) : string :=
  match m with
  | Some entries => default "" (entries !! key)
  | None => ""
  end.

(** [m != nil] *)
Definition notNil (m : option (gmap string string)) : bool :=
  match m with
  | Some _ => true
  | None => false
  end.

(** api/v1alpha1, AiGateway. [TypeMeta] and [Status] are left out: no
    webhook reads or writes them. *)
Module AiGatewayTypes.
Record AiModel := {
  Name : string;
  Provider : string
}.
Record AiGatewaySpec := {
  AiGatewayClassName : string;
  Port : Z;
  AiModels : list AiModel
}.
Record AiGateway := {
  ObjectMeta : metav1.ObjectMeta;
  Spec : AiGatewaySpec
}.
End AiGatewayTypes.

(** api/v1alpha1, ModelRouter. *)
Module ModelRouterTypes.
Record AiModel := {
  Name : string
}.
Record ModelRouterSpec := {
  Type_ : string;
  Port : Z;
  AiModels : list AiModel
}.
Record ModelRouter := {
  ObjectMeta : metav1.ObjectMeta;
  Spec : ModelRouterSpec
}.
End ModelRouterTypes.

(** api/v1alpha1, ModelRouterClass. *)
Module ModelRouterClassTypes.
Record ModelRouterClassSpec := {
  Controller : string
}.
Record ModelRouterClass := {
  ObjectMeta : metav1.ObjectMeta;
  Spec : ModelRouterClassSpec
}.
End ModelRouterClassTypes.

Module AiGatewayClassTypes.
(** Modelled from the spec: the type declaration of AiGatewayClass, which
    the webhook and its tests use: a class has a name, annotations and a
    [controller] string. *)
Record AiGatewayClassSpec := {
  Controller : string
}.
Record AiGatewayClass := {
  ObjectMeta : metav1.ObjectMeta;
  Spec : AiGatewayClassSpec
}.
End AiGatewayClassTypes.

Module runtime.

(** A [runtime.Object] handed to a webhook: a pointer to one of the kinds
    of the API group, or a value of some other dynamic type, whose name
    as printed by [%T] is [goType]. *)
Inductive Object :=
| AiGateway (o : AiGatewayTypes.AiGateway)
| AiGatewayClass (o : AiGatewayClassTypes.AiGatewayClass)
| ModelRouter (o : ModelRouterTypes.ModelRouter)
| ModelRouterClass (o : ModelRouterClassTypes.ModelRouterClass)
| Other (goType : string).

(** What the verb [%T] prints for the object. *)
Definition T (obj : Object) : string :=
  match obj with
  | AiGateway _ => "*v1alpha1.AiGateway"
  | AiGatewayClass _ => "*v1alpha1.AiGatewayClass"
  | ModelRouter _ => "*v1alpha1.ModelRouter"
  | ModelRouterClass _ => "*v1alpha1.ModelRouterClass"
  | Other goType => goType
  end.

End runtime.

Module context.
Inductive Context := Background | TODO.
End context.

Module admission.
Definition Warnings := list string.
End admission.

Module client.

(** What [Client.List(ctx, &list)] leaves behind: the items of the list,
    or an error. *)
Inductive ListResult (A : Type) :=
| Listed (items : list A)
| Failed (err : error).
Arguments Listed {A} items.
Arguments Failed {A} err.

(** The listing capability of [client.Client] for one kind. *)
Record Client (A : Type) := {
  List : context.Context -> ListResult A
}.
Arguments List {A} c ctx.

(** A call made on the client. *)
Inductive Call := ListCall (ctx : context.Context).

End client.

(** ** internal/webhook/v1alpha1: AiGateway *)

Module AiGatewayWebhook.
Import AiGatewayTypes.

Record AiGatewayCustomDefaulter := {}.
Record AiGatewayCustomValidator := {}.

Definition providerModelSeparator : string := "/".

Definition DefaultPort : Z := 4000.

(** The assignment [aiGateway.Spec.Port = port]. *)
Definition setPort (aiGateway : AiGateway) (port : Z) : AiGateway :=
  {| ObjectMeta := ObjectMeta aiGateway;
     Spec := {| AiGatewayClassName := AiGatewayClassName (Spec aiGateway);
                Port := port;
                AiModels := AiModels (Spec aiGateway) |} |}.

(** [Default] mutates the object it is given: the result is the object
    after the call, and the error. *)
Definition Default (d : AiGatewayCustomDefaulter) (ctx : context.Context)
    (obj : runtime.Object) : runtime.Object * option error :=
  match obj with
  | runtime.AiGateway aiGateway =>
      let aiGateway :=
        if Port (Spec aiGateway) =? 0 then setPort aiGateway DefaultPort
        else aiGateway in
      (runtime.AiGateway aiGateway, None)
  | _ =>
      (obj, Some (fmt.Errorf ("expected an AiGateway object but got " +:+ runtime.T obj)))
  end.

Section Validator.
Variable escapeRune : string -> string * nat.

(** The loop over [aiGateway.Spec.AiModels], and the final return. *)
Fixpoint validateAiModels (models : list AiModel)
    : admission.Warnings * option error :=
  match models with
  | [] => ([], None)
  | model :: rest =>
      if String.eqb (Name model) ""
      then ([], Some (errors.New "AI model name cannot be empty"))
      else
        let '(provider, modelName, found) :=
          strings.Cut (Name model) providerModelSeparator in
        if negb found || String.eqb provider "" || String.eqb modelName ""
        then ([], Some (fmt.Errorf
               ("model " +:+ fmt.q escapeRune (Name model)
                +:+ " is malformed; format must be 'provider/model-name'")))
        else validateAiModels rest
  end.

Definition validateAiGatewaySpec (v : AiGatewayCustomValidator)
    (aiGateway : AiGateway) : admission.Warnings * option error :=
  if Port (Spec aiGateway) <=? 0
  then ([], Some (fmt.Errorf
         ("aiGateway port must be positive, got: " +:+ fmt.d (Port (Spec aiGateway)))))
  else if Nat.eqb (length (AiModels (Spec aiGateway))) 0
  then ([], Some (errors.New "no AI models specified in AiGateway"))
  else validateAiModels (AiModels (Spec aiGateway)).

Definition ValidateCreate (v : AiGatewayCustomValidator) (ctx : context.Context)
    (obj : runtime.Object) : admission.Warnings * option error :=
  match obj with
  | runtime.AiGateway aiGateway => validateAiGatewaySpec v aiGateway
  | _ =>
      ([], Some (fmt.Errorf ("expected a AiGateway object but got " +:+ runtime.T obj)))
  end.

Definition ValidateUpdate (v : AiGatewayCustomValidator) (ctx : context.Context)
    (oldObj newObj : runtime.Object) : admission.Warnings * option error :=
  match newObj with
  | runtime.AiGateway aiGateway => validateAiGatewaySpec v aiGateway
  | _ =>
      ([], Some (fmt.Errorf
         ("expected a AiGateway object for the newObj but got " +:+ runtime.T newObj)))
  end.
End Validator.

Definition ValidateDelete (v : AiGatewayCustomValidator) (ctx : context.Context)
    (obj : runtime.Object) : admission.Warnings * option error :=
  match obj with
  | runtime.AiGateway aiGateway => ([], None)
  | _ =>
      ([], Some (fmt.Errorf ("expected a AiGateway object but got " +:+ runtime.T obj)))
  end.

End AiGatewayWebhook.

(** ** internal/webhook/v1alpha1: ModelRouter *)

Module ModelRouterWebhook.
Import ModelRouterTypes.

Record ModelRouterCustomDefaulter := {}.
Record ModelRouterCustomValidator := {}.

Definition providerModelSeparator : string := "/".

Definition DefaultPort : Z := 4000.

(** The assignment [modelrouter.Spec.Port = port]. *)
Definition setPort (modelrouter : ModelRouter) (port : Z) : ModelRouter :=
  {| ObjectMeta := ObjectMeta modelrouter;
     Spec := {| Type_ := Type_ (Spec modelrouter);
                Port := port;
                AiModels := AiModels (Spec modelrouter) |} |}.

Definition Default (d : ModelRouterCustomDefaulter) (ctx : context.Context)
    (obj : runtime.Object) : runtime.Object * option error :=
  match obj with
  | runtime.ModelRouter modelrouter =>
      let modelrouter :=
        if Port (Spec modelrouter) =? 0 then setPort modelrouter DefaultPort
        else modelrouter in
      (runtime.ModelRouter modelrouter, None)
  | _ =>
      (obj, Some (fmt.Errorf ("expected an ModelRouter object but got " +:+ runtime.T obj)))
  end.

Section Validator.
Variable escapeRune : string -> string * nat.

(** The loop over [modelRouter.Spec.AiModels], and the final return. *)
Fixpoint validateAiModels (models : list AiModel)
    : admission.Warnings * option error :=
  match models with
  | [] => ([], None)
  | model :: rest =>
      if String.eqb (Name model) ""
      then ([], Some (errors.New "AI model name cannot be empty"))
      else
        let '(provider, modelName, found) :=
          strings.Cut (Name model) providerModelSeparator in
        if negb found || String.eqb provider "" || String.eqb modelName ""
        then ([], Some (fmt.Errorf
               ("model " +:+ fmt.q escapeRune (Name model)
                +:+ " is malformed; format must be 'provider/model-name'")))
        else validateAiModels rest
  end.

Definition validateModelRouterSpec (v : ModelRouterCustomValidator)
    (modelRouter : ModelRouter) : admission.Warnings * option error :=
  if String.eqb (Type_ (Spec modelRouter)) ""
  then ([], Some (errors.New "model router must specify a type"))
  else if Port (Spec modelRouter) <=? 0
  then ([], Some (fmt.Errorf
         ("modelRouter port must be positive, got: " +:+ fmt.d (Port (Spec modelRouter)))))
  else if Nat.eqb (length (AiModels (Spec modelRouter))) 0
  then ([], Some (errors.New "no AI models specified in ModelRouter"))
  else validateAiModels (AiModels (Spec modelRouter)).

Definition ValidateCreate (v : ModelRouterCustomValidator) (ctx : context.Context)
    (obj : runtime.Object) : admission.Warnings * option error :=
  match obj with
  | runtime.ModelRouter modelRouter => validateModelRouterSpec v modelRouter
  | _ =>
      ([], Some (fmt.Errorf ("expected a ModelRouter object but got " +:+ runtime.T obj)))
  end.

Definition ValidateUpdate (v : ModelRouterCustomValidator) (ctx : context.Context)
    (oldObj newObj : runtime.Object) : admission.Warnings * option error :=
  match newObj with
  | runtime.ModelRouter modelRouter => validateModelRouterSpec v modelRouter
  | _ =>
      ([], Some (fmt.Errorf
         ("expected a ModelRouter object for the newObj but got " +:+ runtime.T newObj)))
  end.
End Validator.

Definition ValidateDelete (v : ModelRouterCustomValidator) (ctx : context.Context)
    (obj : runtime.Object) : admission.Warnings * option error :=
  match obj with
  | runtime.ModelRouter modelrouter => ([], None)
  | _ =>
      ([], Some (fmt.Errorf ("expected a ModelRouter object but got " +:+ runtime.T obj)))
  end.

End ModelRouterWebhook.

(** ** internal/webhook/v1alpha1: AiGatewayClass *)

Module AiGatewayClassWebhook.
Import AiGatewayClassTypes.

Definition DefaultClassAnnotation : string :=
  "aigateway.kubernetes.io/is-default-class".

(** The validator, with the client it was built with. *)
Record AiGatewayClassCustomValidator := {
  Client : client.Client AiGatewayClass
}.

(** The loop over the listed items: [allErrs] at its end. *)
Fixpoint scanItems (aiGatewayClass : AiGatewayClass) (items : list AiGatewayClass)
    (allErrs : field.ErrorList) : field.ErrorList :=
  match items with
  | [] => allErrs
  | existingClass :: rest =>
      if String.eqb (metav1.GetName (ObjectMeta existingClass))
                    (metav1.GetName (ObjectMeta aiGatewayClass))
      then scanItems aiGatewayClass rest allErrs
      else
        let existingAnnotations := metav1.GetAnnotations (ObjectMeta existingClass) in
        if notNil existingAnnotations
           && String.eqb (mapIndex existingAnnotations DefaultClassAnnotation) "true"
        then
          allErrs ++ [field.Invalid
            (field.Key (field.NewPath "metadata" ["annotations"]) DefaultClassAnnotation)
            "true"
            ("another AiGatewayClass '"
             +:+ fmt.s (metav1.GetName (ObjectMeta existingClass))
             +:+ "' already has the default class annotation set to 'true'. Only one AiGatewayClass can be marked as default")]
        else scanItems aiGatewayClass rest allErrs
  end.

(** The end of the function: the aggregate of [allErrs], or acceptance. *)
Definition result (allErrs : field.ErrorList) : admission.Warnings * option error :=
  if (0 <? length allErrs)%nat then ([], Some (ToAggregate allErrs))
  else ([], None).

Section Validator.
Variable escapeRune : string -> string * nat.

(** The validator calls out to its client: the result is the list of
    the calls made, in order, and what the function returns. *)
Definition validateAiGatewayClass (v : AiGatewayClassCustomValidator) (ctx : context.Context)
    (aiGatewayClass : AiGatewayClass)
    : list client.Call * (admission.Warnings * option error) :=
  let allErrs : field.ErrorList := [] in
  let annotations := metav1.GetAnnotations (ObjectMeta aiGatewayClass) in
  if notNil annotations
     && String.eqb (mapIndex annotations DefaultClassAnnotation) "true"
  then
    match client.List (Client v) ctx with
    | client.Failed err =>
        ([client.ListCall ctx],
         ([], Some (fmt.Errorf_w escapeRune
                      "failed to list AiGatewayClass resources: " err)))
    | client.Listed items =>
        ([client.ListCall ctx], result (scanItems aiGatewayClass items allErrs))
    end
  else ([], result allErrs).

Definition ValidateCreate (v : AiGatewayClassCustomValidator) (ctx : context.Context)
    (obj : runtime.Object)
    : list client.Call * (admission.Warnings * option error) :=
  match obj with
  | runtime.AiGatewayClass aiGatewayClass => validateAiGatewayClass v ctx aiGatewayClass
  | _ =>
      ([], ([], Some (fmt.Errorf
         ("expected a AiGatewayClass object but got " +:+ runtime.T obj))))
  end.

Definition ValidateUpdate (v : AiGatewayClassCustomValidator) (ctx : context.Context)
    (oldObj newObj : runtime.Object)
    : list client.Call * (admission.Warnings * option error) :=
  match newObj with
  | runtime.AiGatewayClass aiGatewayClass => validateAiGatewayClass v ctx aiGatewayClass
  | _ =>
      ([], ([], Some (fmt.Errorf
         ("expected a AiGatewayClass object for the newObj but got "
          +:+ runtime.T newObj))))
  end.
End Validator.

Definition ValidateDelete (v : AiGatewayClassCustomValidator) (ctx : context.Context)
    (obj : runtime.Object)
    : list client.Call * (admission.Warnings * option error) :=
  ([], ([], None)).

End AiGatewayClassWebhook.

(** ** internal/webhook/v1alpha1: ModelRouterClass *)

Module ModelRouterClassWebhook.
Import ModelRouterClassTypes.

Definition DefaultClassAnnotation : string :=
  "modelrouter.kubernetes.io/is-default-class".

(** The validator, with the client it was built with. *)
Record ModelRouterClassCustomValidator := {
  Client : client.Client ModelRouterClass
}.

(** The loop over the listed items: [allErrs] at its end. *)
Fixpoint scanItems (modelRouterClass : ModelRouterClass) (items : list ModelRouterClass)
    (allErrs : field.ErrorList) : field.ErrorList :=
  match items with
  | [] => allErrs
  | existingClass :: rest =>
      if String.eqb (metav1.GetName (ObjectMeta existingClass))
                    (metav1.GetName (ObjectMeta modelRouterClass))
      then scanItems modelRouterClass rest allErrs
      else
        let existingAnnotations := metav1.GetAnnotations (ObjectMeta existingClass) in
        if notNil existingAnnotations
           && String.eqb (mapIndex existingAnnotations DefaultClassAnnotation) "true"
        then
          allErrs ++ [field.Invalid
            (field.Key (field.NewPath "metadata" ["annotations"]) DefaultClassAnnotation)
            "true"
            ("another ModelRouterClass '"
             +:+ fmt.s (metav1.GetName (ObjectMeta existingClass))
             +:+ "' already has the default class annotation set to 'true'. Only one ModelRouterClass can be marked as default")]
        else scanItems modelRouterClass rest allErrs
  end.

(** The end of the function: the aggregate of [allErrs], or acceptance. *)
Definition result (allErrs : field.ErrorList) : admission.Warnings * option error :=
  if (0 <? length allErrs)%nat then ([], Some (ToAggregate allErrs))
  else ([], None).

Section Validator.
Variable escapeRune : string -> string * nat.

(** The validator calls out to its client: the result is the list of
    the calls made, in order, and what the function returns. *)
Definition validateModelRouterClass (v : ModelRouterClassCustomValidator) (ctx : context.Context)
    (modelRouterClass : ModelRouterClass)
    : list client.Call * (admission.Warnings * option error) :=
  let allErrs : field.ErrorList := [] in
  let annotations := metav1.GetAnnotations (ObjectMeta modelRouterClass) in
  if notNil annotations
     && String.eqb (mapIndex annotations DefaultClassAnnotation) "true"
  then
    match client.List (Client v) ctx with
    | client.Failed err =>
        ([client.ListCall ctx],
         ([], Some (fmt.Errorf_w escapeRune
                      "failed to list ModelRouterClass resources: " err)))
    | client.Listed items =>
        ([client.ListCall ctx], result (scanItems modelRouterClass items allErrs))
    end
  else ([], result allErrs).

Definition ValidateCreate (v : ModelRouterClassCustomValidator) (ctx : context.Context)
    (obj : runtime.Object)
    : list client.Call * (admission.Warnings * option error) :=
  match obj with
  | runtime.ModelRouterClass modelRouterClass => validateModelRouterClass v ctx modelRouterClass
  | _ =>
      ([], ([], Some (fmt.Errorf
         ("expected a ModelRouterClass object but got " +:+ runtime.T obj))))
  end.

Definition ValidateUpdate (v : ModelRouterClassCustomValidator) (ctx : context.Context)
    (oldObj newObj : runtime.Object)
    : list client.Call * (admission.Warnings * option error) :=
  match newObj with
  | runtime.ModelRouterClass modelRouterClass => validateModelRouterClass v ctx modelRouterClass
  | _ =>
      ([], ([], Some (fmt.Errorf
         ("expected a ModelRouterClass object for the newObj but got "
          +:+ runtime.T newObj))))
  end.
End Validator.

Definition ValidateDelete (v : ModelRouterClassCustomValidator) (ctx : context.Context)
    (obj : runtime.Object)
    : list client.Call * (admission.Warnings * option error) :=
  ([], ([], None)).

End ModelRouterClassWebhook.

(** ** internal/webhook/v1alpha1: the class validators as registered *)

Module ctrl.

(** What the setup functions use of [ctrl.Manager]: its client. *)
Record Manager := {
  GetClient : forall A : Type, client.Client A
}.

End ctrl.

(** The field [Client] of a validator holds an interface value, which is
    nil in a struct literal that does not set it. A method called on a nil
    interface value panics: the functions below are those of
    modelrouterclass_webhook.go over a field that may be nil. *)
Module Registered.
Import ModelRouterClassTypes.

(** A call returns, or panics. *)
Inductive Outcome (A : Type) :=
| Returns (a : A)
| Panics.
Arguments Returns {A} a.
Arguments Panics {A}.

Record ModelRouterClassCustomValidator := {
  Client : option (client.Client ModelRouterClass)
}.

(** The validator each setup function hands to the builder. *)
Definition SetupModelRouterClassWebhookWithManager (mgr : ctrl.Manager)
    : ModelRouterClassCustomValidator :=
  {| Client := None |}.

Definition SetupAiGatewayClassWebhookWithManager (mgr : ctrl.Manager)
    : AiGatewayClassWebhook.AiGatewayClassCustomValidator :=
  {| AiGatewayClassWebhook.Client := ctrl.GetClient mgr AiGatewayClassTypes.AiGatewayClass |}.

Section Validator.
Variable escapeRune : string -> string * nat.

Definition validateModelRouterClass (v : ModelRouterClassCustomValidator) (ctx : context.Context)
    (modelRouterClass : ModelRouterClass)
    : Outcome (list client.Call * (admission.Warnings * option error)) :=
  let allErrs : field.ErrorList := [] in
  let annotations := metav1.GetAnnotations (ObjectMeta modelRouterClass) in
  if notNil annotations
     && String.eqb (mapIndex annotations ModelRouterClassWebhook.DefaultClassAnnotation) "true"
  then
    match Client v with
    | None => Panics
    | Some c =>
        match client.List c ctx with
        | client.Failed err =>
            Returns ([client.ListCall ctx],
                     ([], Some (fmt.Errorf_w escapeRune
                                  "failed to list ModelRouterClass resources: " err)))
        | client.Listed items =>
            Returns ([client.ListCall ctx],
                     ModelRouterClassWebhook.result
                       (ModelRouterClassWebhook.scanItems modelRouterClass items allErrs))
        end
    end
  else Returns ([], ModelRouterClassWebhook.result allErrs).

Definition ValidateCreate (v : ModelRouterClassCustomValidator) (ctx : context.Context)
    (obj : runtime.Object)
    : Outcome (list client.Call * (admission.Warnings * option error)) :=
  match obj with
  | runtime.ModelRouterClass modelRouterClass => validateModelRouterClass v ctx modelRouterClass
  | _ =>
      Returns ([], ([], Some (fmt.Errorf
        ("expected a ModelRouterClass object but got " +:+ runtime.T obj))))
  end.

Definition ValidateUpdate (v : ModelRouterClassCustomValidator) (ctx : context.Context)
    (oldObj newObj : runtime.Object)
    : Outcome (list client.Call * (admission.Warnings * option error)) :=
  match newObj with
  | runtime.ModelRouterClass modelRouterClass => validateModelRouterClass v ctx modelRouterClass
  | _ =>
      Returns ([], ([], Some (fmt.Errorf
        ("expected a ModelRouterClass object for the newObj but got "
         +:+ runtime.T newObj))))
  end.
End Validator.

Definition ValidateDelete (v : ModelRouterClassCustomValidator) (ctx : context.Context)
    (obj : runtime.Object)
    : Outcome (list client.Call * (admission.Warnings * option error)) :=
  Returns ([], ([], None)).

End Registered.

(** * Vocabulary of the statements *)

(** A printable ASCII character other than the double quote and the
    backslash: [%q] prints it as it is. *)
Definition plainRune (c : ascii) : bool :=
  let r := Z.of_N (N_of_ascii c) in
  (32 <=? r) && (r <=? 126) && negb (r =? 34) && negb (r =? 92).

Fixpoint plain (s : string) : bool :=
  match s with
  | EmptyString => true
  | String c s' => plainRune c && plain s'
  end.

(** An instance of [escapeRune] for the examples: it takes a byte >= 0x80
    for one that starts no valid UTF-8 sequence, which [strconv.Quote]
    prints as a backslash, an x and two hexadecimal digits. *)
Definition escapeInvalid (s : string) : string * nat :=
  match s with
  | String c _ =>
      let r := Z.of_N (N_of_ascii c) in
      (String strconv.backslash "x"
         +:+ strconv.hexDigit (Z.shiftr r 4) +:+ strconv.hexDigit (Z.land r 15),
       1%nat)
  | EmptyString => ("", 1%nat)
  end.

(** The first [n] bytes of a string. *)
Fixpoint takeBytes (n : nat) (s : string) : string :=
  match n, s with
  | S n', String c s' => String c (takeBytes n' s')
  | _, _ => ""
  end.

(** [%q] prints every character of [s] as it is: each ASCII character is
    printable and neither the double quote nor the backslash, and for each
    other rune the text emitted is the bytes of the rune. [fuel] bounds
    the number of runes, as in [strconv.appendQuoted]. *)
Fixpoint printedAsIs (escapeRune : string -> string * nat) (fuel : nat) (s : string)
    : bool :=
  match fuel, s with
  | _, EmptyString => true
  | O, String _ _ => false
  | S fuel', String c s' =>
      if Z.of_N (N_of_ascii c) <? 128
      then plainRune c && printedAsIs escapeRune fuel' s'
      else let '(out, width) := escapeRune s in
           String.eqb out (takeBytes width s)
           && printedAsIs escapeRune fuel' (strconv.drop width s)
  end.

Definition printedLiterally (escapeRune : string -> string * nat) (s : string) : bool :=
  printedAsIs escapeRune (String.length s) s.


(** [name] is [provider], a slash and [model], and the slash is its first. *)
Definition splitsInto (name provider model : string) : Prop :=
  name = provider +:+ "/" +:+ model /\ strings.Contains provider "/" = false.

(** A name that splits at its first slash into two parts, neither empty. *)
Definition wellFormed (name : string) : Prop :=
  exists provider model,
    splitsInto name provider model /\ provider <> "" /\ model <> "".

(** A name without a slash, or whose first slash leaves an empty part. *)
Definition malformed (name : string) : Prop :=
  strings.Contains name "/" = false
  \/ exists provider model,
       splitsInto name provider model /\ (provider = "" \/ model = "").

(** The annotations map [key] to exactly "true". *)
Definition marksDefault (key : string) (meta : metav1.ObjectMeta) : Prop :=
  exists entries,
    metav1.Annotations meta = Some entries /\ entries !! key = Some "true".

(** The test the loop over the models applies to the parts of a name. *)
Definition cutTest (name : string) : bool :=
  let '(provider, modelName, found) := strings.Cut name "/" in
  negb found || String.eqb provider "" || String.eqb modelName "".

(** The message for a malformed model name. *)
Definition malformedMessage (escapeRune : string -> string * nat) (name : string) : string :=
  "model " +:+ fmt.q escapeRune name
  +:+ " is malformed; format must be 'provider/model-name'".

Section DefaultScan.
Context {A : Type} (meta : A -> metav1.ObjectMeta) (key : string).

(** The test both class validators apply to a map of annotations. *)
Definition marked (a : A) : bool :=
  notNil (metav1.GetAnnotations (meta a))
  && String.eqb (mapIndex (metav1.GetAnnotations (meta a)) key) "true".

(** The first listed object, if any, that is marked and not named [name]. *)
Fixpoint firstConflict (name : string) (items : list A) : option A :=
  match items with
  | [] => None
  | existing :: rest =>
      if String.eqb (metav1.GetName (meta existing)) name
      then firstConflict name rest
      else if marked existing then Some existing
      else firstConflict name rest
  end.

(** [existing] conflicts with a marked candidate named [name]. *)
Definition conflictsWith (name : string) (existing : A) : Prop :=
  metav1.Name (meta existing) <> name /\ marksDefault key (meta existing).
End DefaultScan.

(** The error of a singleton conflict with the object named [existing]. *)
Definition conflictError (key kind existing : string) : field.Error :=
  field.Invalid
    (field.Key (field.NewPath "metadata" ["annotations"]) key)
    "true"
    ("another " +:+ kind +:+ " '" +:+ existing
     +:+ "' already has the default class annotation set to 'true'. Only one "
     +:+ kind +:+ " can be marked as default").

(** What a class validator does with a candidate, given what the listing
    returns: the calls on the client and the result. *)
Definition classOutcome (escapeRune : string -> string * nat) {A : Type}
    (meta : A -> metav1.ObjectMeta) (key kind : string)
    (ctx : context.Context) (candidate : A) (listing : client.ListResult A)
    : list client.Call * (admission.Warnings * option error) :=
  if marked meta key candidate then
    match listing with
    | client.Failed cause =>
        ([client.ListCall ctx],
         ([], Some (wrapError
                      ("failed to list " +:+ kind +:+ " resources: "
                       +:+ errors.Error escapeRune cause) cause)))
    | client.Listed items =>
        ([client.ListCall ctx],
         match firstConflict meta key (metav1.Name (meta candidate)) items with
         | Some existing =>
             ([], Some (Aggregate [conflictError key kind (metav1.Name (meta existing))]))
         | None => ([], None)
         end)
    end
  else ([], ([], None)).

(** Inputs of the examples. *)
Module Examples.

Definition meta (name : string) (annotations : option (gmap string string))
    : metav1.ObjectMeta :=
  {| metav1.Name := name;
     metav1.Namespace := "default";
     metav1.Annotations := annotations |}.

Definition gateway (port : Z) (models : list AiGatewayTypes.AiModel)
    : AiGatewayTypes.AiGateway :=
  {| AiGatewayTypes.ObjectMeta := meta "gateway" None;
     AiGatewayTypes.Spec :=
       {| AiGatewayTypes.AiGatewayClassName := "";
          AiGatewayTypes.Port := port;
          AiGatewayTypes.AiModels := models |} |}.

Definition router (type : string) (port : Z) (names : list string)
    : ModelRouterTypes.ModelRouter :=
  {| ModelRouterTypes.ObjectMeta := meta "router" None;
     ModelRouterTypes.Spec :=
       {| ModelRouterTypes.Type_ := type;
          ModelRouterTypes.Port := port;
          ModelRouterTypes.AiModels := map ModelRouterTypes.Build_AiModel names |} |}.


Definition isDefault (key : string) : option (gmap string string) :=
  Some {[ key := "true" ]}.

Definition gatewayClass (name : string) (annotations : option (gmap string string))
    : AiGatewayClassTypes.AiGatewayClass :=
  {| AiGatewayClassTypes.ObjectMeta := meta name annotations;
     AiGatewayClassTypes.Spec := {| AiGatewayClassTypes.Controller := "test-controller" |} |}.

Definition routerClass (name : string) (annotations : option (gmap string string))
    : ModelRouterClassTypes.ModelRouterClass :=
  {| ModelRouterClassTypes.ObjectMeta := meta name annotations;
     ModelRouterClassTypes.Spec :=
       {| ModelRouterClassTypes.Controller := "test-controller" |} |}.

(** A client whose listing succeeds with [items], and one whose listing
    fails with [err]. *)
Definition listing {A : Type} (items : list A) : client.Client A :=
  {| client.List := fun _ => client.Listed items |}.

Definition failing {A : Type} (err : error) : client.Client A :=
  {| client.List := fun _ => client.Failed err |}.

End Examples.

(** * Properties *)

(** ** Strings *)

Module stringsFacts.
Import strings.

Lemma HasPrefix_nil (s : string) : HasPrefix s "" = true.
Proof. destruct s; reflexivity. Qed.

Lemma HasPrefix_append (sub post : string) : HasPrefix (sub +:+ post) sub = true.
Proof.
  induction sub as [|c sub IH]; simpl.
  - destruct post; reflexivity.
  - rewrite Ascii.eqb_refl. exact IH.
Qed.

Lemma HasPrefix_inv (s prefix : string) :
  HasPrefix s prefix = true -> exists post, s = prefix +:+ post.
Proof.
  revert s. induction prefix as [|p prefix IH]; intros s H.
  - exists s. reflexivity.
  - destruct s as [|c s]; simpl in H; [discriminate|].
    destruct (Ascii.eqb_spec c p) as [->|]; [|discriminate].
    destruct (IH s H) as [post ->]. exists post. reflexivity.
Qed.

Lemma Index_cons (c : ascii) (s sub : string) :
  Index (String c s) sub =
    if HasPrefix (String c s) sub then 0
    else if Index s sub <? 0 then -1 else Index s sub + 1.
Proof. reflexivity. Qed.

Lemma Index_lower_bound (s sub : string) : -1 <= Index s sub.
Proof.
  induction s as [|c s IH].
  - destruct sub; simpl; lia.
  - rewrite Index_cons. destruct (HasPrefix (String c s) sub); [lia|].
    destruct (Z.ltb_spec (Index s sub) 0); lia.
Qed.

Lemma Index_HasPrefix (s sub : string) : HasPrefix s sub = true -> Index s sub = 0.
Proof.
  intros H. destruct s.
  - destruct sub; [reflexivity | discriminate H].
  - rewrite Index_cons, H. reflexivity.
Qed.

Lemma Contains_prefix (sub post : string) : Contains (sub +:+ post) sub = true.
Proof.
  unfold Contains. rewrite Index_HasPrefix; [reflexivity | apply HasPrefix_append].
Qed.

Lemma append_empty_r (s : string) : s +:+ "" = s.
Proof. induction s as [|c s IH]; simpl; [reflexivity|]. f_equal. exact IH. Qed.

Lemma append_assoc (a b c : string) : (a +:+ b) +:+ c = a +:+ (b +:+ c).
Proof. induction a as [|x a IH]; simpl; [reflexivity|]. f_equal. exact IH. Qed.

Lemma Contains_refl (s : string) : Contains s s = true.
Proof.
  pose proof (Contains_prefix s "") as H. rewrite append_empty_r in H. exact H.
Qed.

Lemma Contains_cons (c : ascii) (s sub : string) :
  Contains s sub = true -> Contains (String c s) sub = true.
Proof.
  unfold Contains. intros H. apply Z.leb_le in H. apply Z.leb_le.
  rewrite Index_cons. destruct (HasPrefix (String c s) sub); [lia|].
  destruct (Z.ltb_spec (Index s sub) 0); lia.
Qed.

Lemma Contains_append_r (pre s sub : string) :
  Contains s sub = true -> Contains (pre +:+ s) sub = true.
Proof.
  intros H. induction pre as [|c pre IH]; simpl; [exact H|].
  apply Contains_cons, IH.
Qed.

(** [Contains] is the substring relation. *)
Lemma Contains_spec (s sub : string) :
  Contains s sub = true <-> exists pre post, s = pre +:+ sub +:+ post.
Proof.
  split.
  - unfold Contains. intros H. apply Z.leb_le in H.
    induction s as [|c s IH].
    + destruct sub; simpl in H; [|lia]. exists "", "". reflexivity.
    + rewrite Index_cons in H. destruct (HasPrefix (String c s) sub) eqn:E.
      * destruct (HasPrefix_inv _ _ E) as [post Hp]. exists "", post. exact Hp.
      * destruct (Z.ltb_spec (Index s sub) 0); [lia|].
        destruct IH as (pre & post & ->); [lia|].
        exists (String c pre), post. reflexivity.
  - intros (pre & post & ->). apply Contains_append_r, Contains_prefix.
Qed.

Lemma substring_all (s : string) : String.substring 0 (String.length s) s = s.
Proof. induction s as [|c s IH]; simpl; [reflexivity|]. rewrite IH. reflexivity. Qed.

Lemma substring_prefix (p rest : string) :
  String.substring 0 (String.length p) (p +:+ rest) = p.
Proof.
  induction p as [|c p IH]; simpl.
  - destruct rest; reflexivity.
  - rewrite IH. reflexivity.
Qed.

Lemma substring_suffix (p rest : string) :
  String.substring (String.length p) (String.length rest) (p +:+ rest) = rest.
Proof. induction p as [|c p IH]; simpl; [apply substring_all | exact IH]. Qed.

Lemma length_append (a b : string) :
  String.length (a +:+ b) = (String.length a + String.length b)%nat.
Proof. induction a as [|c a IH]; simpl; [reflexivity|]. rewrite IH. reflexivity. Qed.

(** The index of a separator character that the text before it lacks. *)
Lemma Index_first (c : ascii) (p rest : string) :
  Contains p (String c "") = false ->
  Index (p +:+ String c rest) (String c "") = len p.
Proof.
  unfold Contains, len. induction p as [|a p IH]; intros H.
  - rewrite Index_HasPrefix; [reflexivity|].
    apply (HasPrefix_append (String c "") rest).
  - apply Z.leb_gt in H. simpl String.append.
    rewrite Index_cons in *. cbn [HasPrefix] in *.
    destruct (Ascii.eqb a c); [rewrite HasPrefix_nil in H; lia|].
    destruct (Z.ltb_spec (Index p (String c "")) 0) as [Hlt|Hge]; [|lia].
    rewrite IH by (apply Z.leb_gt; lia).
    destruct (Z.ltb_spec (Z.of_nat (String.length p)) 0); [lia|].
    simpl String.length. lia.
Qed.

(** [Cut] on a string without the separator character. *)
Lemma Cut_absent (s sep : string) :
  Contains s sep = false -> Cut s sep = (s, "", false).
Proof. unfold Contains, Cut. intros ->. reflexivity. Qed.

(** [Cut] splits at the first separator character. *)
Lemma Cut_first (c : ascii) (p rest : string) :
  Contains p (String c "") = false ->
  Cut (p +:+ String c rest) (String c "") = (p, rest, true).
Proof.
  intros H. unfold Cut. rewrite (Index_first c p rest H).
  unfold len, slice.
  destruct (Z.leb_spec 0 (Z.of_nat (String.length p))); [|lia].
  rewrite Z.sub_0_r, Nat2Z.id. change (Z.to_nat 0) with 0%nat.
  rewrite substring_prefix.
  rewrite length_append. simpl String.length.
  replace (Z.to_nat (Z.of_nat (String.length p) + Z.of_nat 1))
    with (String.length (p +:+ String c "")) by (rewrite length_append; simpl; lia).
  replace (Z.to_nat (Z.of_nat (String.length p + S (String.length rest))
                     - (Z.of_nat (String.length p) + Z.of_nat 1)))
    with (String.length rest) by lia.
  replace (p +:+ String c rest) with ((p +:+ String c "") +:+ rest).
  - rewrite substring_suffix. reflexivity.
  - clear. induction p as [|a p IH]; simpl; [reflexivity|]. rewrite IH. reflexivity.
Qed.

End stringsFacts.

(** ** Quoting *)

Module strconvFacts.
Import strconv.

Lemma escapeASCII_plain (c : ascii) :
  plainRune c = true -> escapeASCII c = String c "".
Proof.
  unfold plainRune, escapeASCII. cbv zeta.
  set (r := Z.of_N (N_of_ascii c)).
  intros H.
  apply andb_prop in H as [H H4]. apply andb_prop in H as [H H3].
  apply andb_prop in H as [H1 H2].
  destruct (r =? 34); [discriminate H3|]. destruct (r =? 92); [discriminate H4|].
  rewrite H1, H2. reflexivity.
Qed.

Lemma plainRune_ascii (c : ascii) :
  plainRune c = true -> (Z.of_N (N_of_ascii c) <? 128) = true.
Proof.
  unfold plainRune. cbv zeta. set (r := Z.of_N (N_of_ascii c)).
  intros H.
  apply andb_prop in H as [H _]. apply andb_prop in H as [H _].
  apply andb_prop in H as [_ H]. lia.
Qed.

Section Quote.
Variable escapeRune : string -> string * nat.

Lemma appendQuoted_plain (s : string) (fuel : nat) :
  plain s = true -> (String.length s <= fuel)%nat ->
  appendQuoted escapeRune fuel s = s.
Proof.
  revert fuel. induction s as [|c s IH]; intros fuel Hp Hf.
  - destruct fuel; reflexivity.
  - simpl in Hp. apply andb_prop in Hp as [Hc Hs].
    destruct fuel as [|fuel]; [simpl in Hf; lia|].
    simpl. rewrite (plainRune_ascii c Hc), (escapeASCII_plain c Hc).
    simpl. f_equal. apply IH; [exact Hs | simpl in Hf; lia].
Qed.

Lemma drop_length (n : nat) (s : string) :
  (String.length (drop n s) <= String.length s)%nat.
Proof.
  revert s. induction n as [|n IH]; intros s; [destruct s; simpl; lia|].
  destruct s as [|c s]; simpl; [lia|]. specialize (IH s). lia.
Qed.

(** The loop of [Quote] consumes at least one byte a turn, so the length
    of the string is fuel enough: more fuel gives the same text. *)
Lemma appendQuoted_fuel (s : string) (fuel : nat) :
  (forall x, (1 <= (escapeRune x).2)%nat) ->
  (String.length s <= fuel)%nat ->
  appendQuoted escapeRune fuel s = appendQuoted escapeRune (String.length s) s.
Proof.
  intros Hw.
  assert (H : forall n x f1 f2,
             (String.length x <= n)%nat ->
             (String.length x <= f1)%nat -> (String.length x <= f2)%nat ->
             appendQuoted escapeRune f1 x = appendQuoted escapeRune f2 x).
  { induction n as [|n IH]; intros x f1 f2 Hn H1 H2.
    - destruct x; [destruct f1, f2; reflexivity | simpl in Hn; lia].
    - destruct x as [|c x]; [destruct f1, f2; reflexivity|].
      simpl in Hn, H1, H2.
      destruct f1 as [|f1]; [lia|]. destruct f2 as [|f2]; [lia|].
      cbn [appendQuoted].
      destruct (Z.of_N (N_of_ascii c) <? 128).
      + f_equal. apply IH; lia.
      + specialize (Hw (String c x)).
        destruct (escapeRune (String c x)) as [out width]. simpl in Hw.
        f_equal. destruct width as [|width]; [lia|]. cbn [drop].
        pose proof (drop_length width x).
        apply IH; lia. }
  intros Hf. apply (H (String.length s)); lia.
Qed.

(** A plain string is quoted by putting it between double quotes. *)
Lemma Quote_plain (s : string) :
  plain s = true ->
  Quote escapeRune s = String dquote (s +:+ String dquote "").
Proof.
  intros H. unfold Quote. rewrite appendQuoted_plain; [reflexivity | exact H | lia].
Qed.

Lemma Quote_plain_Contains (s : string) :
  plain s = true -> strings.Contains (Quote escapeRune s) s = true.
Proof.
  intros H. rewrite (Quote_plain s H).
  apply stringsFacts.Contains_cons, stringsFacts.Contains_prefix.
Qed.
End Quote.

End strconvFacts.

(** ** Component names *)

Module cutFacts.
Import strings stringsFacts.

Lemma eqb_empty_false (s : string) : s <> "" -> String.eqb s "" = false.
Proof. intros H. apply String.eqb_neq. exact H. Qed.

Lemma splitsInto_Cut (name provider model : string) :
  splitsInto name provider model -> Cut name "/" = (provider, model, true).
Proof. intros [-> H]. apply (Cut_first "/" provider model H). Qed.

Lemma splitsInto_nonempty (name provider model : string) :
  splitsInto name provider model -> name <> "".
Proof. intros [-> _]. destruct provider; discriminate. Qed.

Lemma cutTest_malformed (name : string) : malformed name -> cutTest name = true.
Proof.
  unfold cutTest. intros [H | (p & m & Hs & Hpm)].
  - rewrite (Cut_absent _ _ H). reflexivity.
  - rewrite (splitsInto_Cut _ _ _ Hs). destruct Hpm as [-> | ->].
    + reflexivity.
    + simpl. apply orb_true_r.
Qed.

Lemma cutTest_wellFormed (name : string) : wellFormed name -> cutTest name = false.
Proof.
  unfold cutTest. intros (p & m & Hs & Hp & Hm).
  rewrite (splitsInto_Cut _ _ _ Hs). simpl.
  rewrite (eqb_empty_false p Hp), (eqb_empty_false m Hm). reflexivity.
Qed.

Lemma wellFormed_nonempty (name : string) : wellFormed name -> name <> "".
Proof. intros (p & m & Hs & _). exact (splitsInto_nonempty _ _ _ Hs). Qed.

(** Every name is well formed or malformed, and not both. *)
Lemma wellFormed_or_malformed (name : string) : wellFormed name \/ malformed name.
Proof.
  destruct (Contains name "/") eqn:E; [|right; left; exact E].
  assert (Hsplit : exists p m, splitsInto name p m).
  { clear -E. induction name as [|c name IH].
    - discriminate E.
    - destruct (Ascii.eqb_spec c "/") as [->|Hc].
      + exists "", name. split; reflexivity.
      + unfold Contains in E. rewrite Index_cons in E. cbn [HasPrefix] in E.
        destruct (Ascii.eqb_spec c "/") as [|_]; [contradiction|].
        destruct (Z.ltb_spec (Index name "/") 0) as [Hlt|Hge]; [discriminate E|].
        destruct IH as (p & m & -> & Hp); [apply Z.leb_le; exact Hge|].
        exists (String c p), m. split; [reflexivity|].
        unfold Contains in *. rewrite Index_cons. cbn [HasPrefix].
        destruct (Ascii.eqb_spec c "/") as [|_]; [contradiction|].
        apply Z.leb_gt in Hp. pose proof (Index_lower_bound p "/").
        destruct (Z.ltb_spec (Index p "/") 0); [reflexivity | lia]. }
  destruct Hsplit as (p & m & Hs).
  destruct (String.eqb_spec p "") as [Hp|Hp].
  - right; right. exists p, m. auto.
  - destruct (String.eqb_spec m "") as [Hm|Hm].
    + right; right. exists p, m. auto.
    + left. exists p, m. auto.
Qed.


End cutFacts.

(** ** Instance kinds: AiGateway and ModelRouter *)

Section Instances.
Variable escapeRune : string -> string * nat.

(** One step of the loop of [validateModelRouterSpec]. *)
Lemma router_models_cons (m : ModelRouterTypes.AiModel)
    (rest : list ModelRouterTypes.AiModel) :
  ModelRouterWebhook.validateAiModels escapeRune (m :: rest) =
    if String.eqb (ModelRouterTypes.Name m) ""
    then ([], Some (errors.New "AI model name cannot be empty"))
    else if cutTest (ModelRouterTypes.Name m)
    then ([], Some (fmt.Errorf (malformedMessage escapeRune (ModelRouterTypes.Name m))))
    else ModelRouterWebhook.validateAiModels escapeRune rest.
Proof.
  unfold cutTest. simpl. unfold ModelRouterWebhook.providerModelSeparator.
  destruct (String.eqb (ModelRouterTypes.Name m) ""); [reflexivity|].
  destruct (strings.Cut (ModelRouterTypes.Name m) "/") as [[provider modelName] found].
  reflexivity.
Qed.

(** Well-formed names at the head of the list are passed over. *)
Lemma router_models_skip (ok rest : list ModelRouterTypes.AiModel) :
  Forall (fun x => wellFormed (ModelRouterTypes.Name x)) ok ->
  ModelRouterWebhook.validateAiModels escapeRune (ok ++ rest) =
    ModelRouterWebhook.validateAiModels escapeRune rest.
Proof.
  induction 1 as [|m ok Hm _ IH]; [reflexivity|].
  change ((m :: ok) ++ rest) with (m :: (ok ++ rest)).
  rewrite router_models_cons, (cutFacts.cutTest_wellFormed _ Hm).
  rewrite (cutFacts.eqb_empty_false _ (cutFacts.wellFormed_nonempty _ Hm)).
  exact IH.
Qed.

Lemma router_models_accept (ms : list ModelRouterTypes.AiModel) :
  Forall (fun x => wellFormed (ModelRouterTypes.Name x)) ms ->
  ModelRouterWebhook.validateAiModels escapeRune ms = ([], None).
Proof.
  intros H. rewrite <- (app_nil_r ms). rewrite (router_models_skip ms [] H). reflexivity.
Qed.




Lemma malformedMessage_plain (name : string) :
  plain name = true ->
  strings.Contains (malformedMessage escapeRune name) name = true.
Proof.
  intros H. unfold malformedMessage, fmt.q.
  apply stringsFacts.Contains_append_r.
  rewrite (strconvFacts.Quote_plain escapeRune name H).
  simpl. apply stringsFacts.Contains_cons.
  rewrite stringsFacts.append_assoc.
  apply stringsFacts.Contains_prefix.
Qed.

End Instances.

Section InstanceClaims.
Variable escapeRune : string -> string * nat.

(** C3, amended. A gateway whose port is not positive is rejected, whatever
    its other fields, with a message that ends in the port in decimal. A
    router is checked for its type first: with a type that is not empty
    and a port that is not positive it is rejected with the port in the
    message; with an empty type it is rejected for the type, whatever the
    port. *)
Theorem nonpositive_port_rejected :
  (forall (v : AiGatewayWebhook.AiGatewayCustomValidator) (g : AiGatewayTypes.AiGateway),
     AiGatewayTypes.Port (AiGatewayTypes.Spec g) <= 0 ->
     AiGatewayWebhook.validateAiGatewaySpec escapeRune v g =
       ([], Some (fmt.Errorf ("aiGateway port must be positive, got: "
                              +:+ fmt.d (AiGatewayTypes.Port (AiGatewayTypes.Spec g)))))
     /\ strings.Contains
          ("aiGateway port must be positive, got: "
           +:+ fmt.d (AiGatewayTypes.Port (AiGatewayTypes.Spec g)))
          (strconv.Itoa (AiGatewayTypes.Port (AiGatewayTypes.Spec g))) = true)
  /\ (forall (v : ModelRouterWebhook.ModelRouterCustomValidator)
        (r : ModelRouterTypes.ModelRouter),
     ModelRouterTypes.Type_ (ModelRouterTypes.Spec r) <> "" ->
     ModelRouterTypes.Port (ModelRouterTypes.Spec r) <= 0 ->
     ModelRouterWebhook.validateModelRouterSpec escapeRune v r =
       ([], Some (fmt.Errorf ("modelRouter port must be positive, got: "
                              +:+ fmt.d (ModelRouterTypes.Port (ModelRouterTypes.Spec r)))))
     /\ strings.Contains
          ("modelRouter port must be positive, got: "
           +:+ fmt.d (ModelRouterTypes.Port (ModelRouterTypes.Spec r)))
          (strconv.Itoa (ModelRouterTypes.Port (ModelRouterTypes.Spec r))) = true)
  /\ (forall (v : ModelRouterWebhook.ModelRouterCustomValidator)
        (r : ModelRouterTypes.ModelRouter),
     ModelRouterTypes.Type_ (ModelRouterTypes.Spec r) = "" ->
     ModelRouterWebhook.validateModelRouterSpec escapeRune v r =
       ([], Some (errors.New "model router must specify a type"))).
Proof.
  split; [|split].
  - intros v g Hp. split.
    + unfold AiGatewayWebhook.validateAiGatewaySpec.
      destruct (Z.leb_spec (AiGatewayTypes.Port (AiGatewayTypes.Spec g)) 0); [reflexivity | lia].
    + apply stringsFacts.Contains_append_r, stringsFacts.Contains_refl.
  - intros v r Ht Hp. split.
    + unfold ModelRouterWebhook.validateModelRouterSpec.
      rewrite (cutFacts.eqb_empty_false _ Ht).
      destruct (Z.leb_spec (ModelRouterTypes.Port (ModelRouterTypes.Spec r)) 0);
        [reflexivity | lia].
    + apply stringsFacts.Contains_append_r, stringsFacts.Contains_refl.
  - intros v r Ht. unfold ModelRouterWebhook.validateModelRouterSpec.
    rewrite Ht. reflexivity.
Qed.

End InstanceClaims.

(** C3, as stated, fails on a router whose type is empty and whose port is
    -1: it is rejected for the type, and the message does not hold the
    port. *)
Lemma router_empty_type_hides_port :
  ModelRouterWebhook.validateModelRouterSpec escapeInvalid
    ModelRouterWebhook.Build_ModelRouterCustomValidator
    (Examples.router "" (-1) ["openai/gpt-4"])
  = ([], Some (errors.New "model router must specify a type"))
  /\ strings.Contains "model router must specify a type" (strconv.Itoa (-1)) = false.
Proof. split; reflexivity. Qed.

(** The amended C3 at a gateway and a router with port -1, and at a router
    without a type. *)
Lemma nonpositive_port_rejected_witness :
  (-1 <= 0
   /\ AiGatewayWebhook.validateAiGatewaySpec escapeInvalid
        AiGatewayWebhook.Build_AiGatewayCustomValidator (Examples.gateway (-1) [])
      = ([], Some (errors.New "aiGateway port must be positive, got: -1")))
  /\ ("litellm" <> ""
      /\ ModelRouterWebhook.validateModelRouterSpec escapeInvalid
           ModelRouterWebhook.Build_ModelRouterCustomValidator
           (Examples.router "litellm" (-1) [])
         = ([], Some (errors.New "modelRouter port must be positive, got: -1")))
  /\ ModelRouterWebhook.validateModelRouterSpec escapeInvalid
       ModelRouterWebhook.Build_ModelRouterCustomValidator
       (Examples.router "" 4000 ["openai/gpt-4"])
     = ([], Some (errors.New "model router must specify a type")).
Proof.
  pose proof (nonpositive_port_rejected escapeInvalid) as (Hg & Hr & Ht).
  assert (Hp : -1 <= 0) by lia.
  assert (Hn : "litellm" <> "") by discriminate.
  split; [|split].
  - split; [exact Hp|].
    exact (proj1 (Hg AiGatewayWebhook.Build_AiGatewayCustomValidator
                     (Examples.gateway (-1) []) Hp)).
  - split; [exact Hn|].
    exact (proj1 (Hr ModelRouterWebhook.Build_ModelRouterCustomValidator
                     (Examples.router "litellm" (-1) []) Hn Hp)).
  - exact (Ht ModelRouterWebhook.Build_ModelRouterCustomValidator
              (Examples.router "" 4000 ["openai/gpt-4"]) eq_refl).
Defined.

(** C2, code bug. [validateAiGatewaySpec] applies the compound-name rule
    of the router to the [name] of a gateway model and never reads its
    [provider]: the model gpt-4 of the provider openai, which the tests of
    the webhook expect to be admitted, is rejected as malformed, and a
    model with an empty provider, which they expect to be denied, is
    accepted. *)
Theorem gateway_validator_ignores_provider :
  AiGatewayWebhook.validateAiGatewaySpec escapeInvalid
    AiGatewayWebhook.Build_AiGatewayCustomValidator
    (Examples.gateway 4000
       [{| AiGatewayTypes.Name := "gpt-4"; AiGatewayTypes.Provider := "openai" |}])
  = ([], Some (errors.New (malformedMessage escapeInvalid "gpt-4")))
  /\ AiGatewayWebhook.validateAiGatewaySpec escapeInvalid
       AiGatewayWebhook.Build_AiGatewayCustomValidator
       (Examples.gateway 4000
          [{| AiGatewayTypes.Name := "openai/gpt-4"; AiGatewayTypes.Provider := "" |}])
     = ([], None).
Proof. split; reflexivity. Qed.

(** C6. On an instance of either family [Default] returns no error, sets a
    port that is 0 to 4000 and changes nothing else, and leaves an instance
    whose port is not 0 as it is; applied to its own result it changes
    nothing more. *)
Theorem Default_sets_zero_port_only :
  (forall (d : AiGatewayWebhook.AiGatewayCustomDefaulter) (ctx : context.Context)
      (g : AiGatewayTypes.AiGateway),
     exists g',
       AiGatewayWebhook.Default d ctx (runtime.AiGateway g) = (runtime.AiGateway g', None)
       /\ (AiGatewayTypes.Port (AiGatewayTypes.Spec g) = 0 ->
           AiGatewayTypes.Port (AiGatewayTypes.Spec g') = 4000)
       /\ (AiGatewayTypes.Port (AiGatewayTypes.Spec g) <> 0 -> g' = g)
       /\ AiGatewayTypes.ObjectMeta g' = AiGatewayTypes.ObjectMeta g
       /\ AiGatewayTypes.AiGatewayClassName (AiGatewayTypes.Spec g')
          = AiGatewayTypes.AiGatewayClassName (AiGatewayTypes.Spec g)
       /\ AiGatewayTypes.AiModels (AiGatewayTypes.Spec g')
          = AiGatewayTypes.AiModels (AiGatewayTypes.Spec g))
  /\ (forall (d : ModelRouterWebhook.ModelRouterCustomDefaulter) (ctx : context.Context)
        (r : ModelRouterTypes.ModelRouter),
     exists r',
       ModelRouterWebhook.Default d ctx (runtime.ModelRouter r) = (runtime.ModelRouter r', None)
       /\ (ModelRouterTypes.Port (ModelRouterTypes.Spec r) = 0 ->
           ModelRouterTypes.Port (ModelRouterTypes.Spec r') = 4000)
       /\ (ModelRouterTypes.Port (ModelRouterTypes.Spec r) <> 0 -> r' = r)
       /\ ModelRouterTypes.ObjectMeta r' = ModelRouterTypes.ObjectMeta r
       /\ ModelRouterTypes.Type_ (ModelRouterTypes.Spec r')
          = ModelRouterTypes.Type_ (ModelRouterTypes.Spec r)
       /\ ModelRouterTypes.AiModels (ModelRouterTypes.Spec r')
          = ModelRouterTypes.AiModels (ModelRouterTypes.Spec r))
  /\ (forall (d : AiGatewayWebhook.AiGatewayCustomDefaulter) (ctx : context.Context)
        (obj : runtime.Object),
     AiGatewayWebhook.Default d ctx (AiGatewayWebhook.Default d ctx obj).1
     = AiGatewayWebhook.Default d ctx obj)
  /\ (forall (d : ModelRouterWebhook.ModelRouterCustomDefaulter) (ctx : context.Context)
        (obj : runtime.Object),
     ModelRouterWebhook.Default d ctx (ModelRouterWebhook.Default d ctx obj).1
     = ModelRouterWebhook.Default d ctx obj).
Proof.
  split; [|split; [|split]].
  - intros d ctx g. simpl.
    destruct (Z.eqb_spec (AiGatewayTypes.Port (AiGatewayTypes.Spec g)) 0) as [E|E].
    + exists (AiGatewayWebhook.setPort g AiGatewayWebhook.DefaultPort).
      repeat split; try reflexivity. intros H. contradiction.
    + exists g. repeat split; try reflexivity. intros H. contradiction.
  - intros d ctx r. simpl.
    destruct (Z.eqb_spec (ModelRouterTypes.Port (ModelRouterTypes.Spec r)) 0) as [E|E].
    + exists (ModelRouterWebhook.setPort r ModelRouterWebhook.DefaultPort).
      repeat split; try reflexivity. intros H. contradiction.
    + exists r. repeat split; try reflexivity. intros H. contradiction.
  - intros d ctx [g| | | |T]; try reflexivity. simpl.
    destruct (Z.eqb_spec (AiGatewayTypes.Port (AiGatewayTypes.Spec g)) 0) as [E|E].
    + reflexivity.
    + simpl. destruct (Z.eqb_spec (AiGatewayTypes.Port (AiGatewayTypes.Spec g)) 0);
        [contradiction | reflexivity].
  - intros d ctx [| |r| |T]; try reflexivity. simpl.
    destruct (Z.eqb_spec (ModelRouterTypes.Port (ModelRouterTypes.Spec r)) 0) as [E|E].
    + reflexivity.
    + simpl. destruct (Z.eqb_spec (ModelRouterTypes.Port (ModelRouterTypes.Spec r)) 0);
        [contradiction | reflexivity].
Qed.

(** C6 at a gateway without a port, and at routers with the ports 0 and -1. *)
Lemma Default_sets_zero_port_only_witness :
  AiGatewayWebhook.Default AiGatewayWebhook.Build_AiGatewayCustomDefaulter
    context.Background (runtime.AiGateway (Examples.gateway 0 []))
  = (runtime.AiGateway (Examples.gateway 4000 []), None)
  /\ (-1 <> 0
      /\ ModelRouterWebhook.Default ModelRouterWebhook.Build_ModelRouterCustomDefaulter
           context.Background (runtime.ModelRouter (Examples.router "litellm" (-1) []))
         = (runtime.ModelRouter (Examples.router "litellm" (-1) []), None)).
Proof.
  pose proof Default_sets_zero_port_only as (Hg & Hr & _ & _).
  split.
  - destruct (Hg AiGatewayWebhook.Build_AiGatewayCustomDefaulter context.Background
                 (Examples.gateway 0 []))
      as (g' & Hres & Hport & _ & Hmeta & Hclass & Hmodels).
    rewrite Hres. destruct g' as [meta' [class' port' models']]. simpl in *.
    rewrite (Hport eq_refl), Hmeta, Hclass, Hmodels. reflexivity.
  - assert (Hne : -1 <> 0) by discriminate. split; [exact Hne|].
    destruct (Hr ModelRouterWebhook.Build_ModelRouterCustomDefaulter context.Background
                 (Examples.router "litellm" (-1) [])) as (r' & Hres & _ & Hsame & _).
    rewrite Hres, (Hsame Hne). reflexivity.
Defined.

(** C8. [ValidateDelete] of an instance kind accepts every object of its
    kind, whatever its spec, and rejects every other object with a message
    that names the kind it expects and the type of the object it was
    given: for a pointer to another kind of the group the type as [%T]
    prints it, for a value of any other type that type. *)
Theorem instance_ValidateDelete_checks_type_only :
  (forall (v : AiGatewayWebhook.AiGatewayCustomValidator) (ctx : context.Context),
     (forall g, AiGatewayWebhook.ValidateDelete v ctx (runtime.AiGateway g) = ([], None))
     /\ (forall c,
         AiGatewayWebhook.ValidateDelete v ctx (runtime.AiGatewayClass c)
         = ([], Some (errors.New
              "expected a AiGateway object but got *v1alpha1.AiGatewayClass")))
     /\ (forall r,
         AiGatewayWebhook.ValidateDelete v ctx (runtime.ModelRouter r)
         = ([], Some (errors.New
              "expected a AiGateway object but got *v1alpha1.ModelRouter")))
     /\ (forall c,
         AiGatewayWebhook.ValidateDelete v ctx (runtime.ModelRouterClass c)
         = ([], Some (errors.New
              "expected a AiGateway object but got *v1alpha1.ModelRouterClass")))
     /\ (forall t,
         AiGatewayWebhook.ValidateDelete v ctx (runtime.Other t)
         = ([], Some (errors.New ("expected a AiGateway object but got " +:+ t)))
         /\ strings.Contains ("expected a AiGateway object but got " +:+ t)
              "AiGateway" = true
         /\ strings.Contains ("expected a AiGateway object but got " +:+ t) t = true))
  /\ (forall (v : ModelRouterWebhook.ModelRouterCustomValidator) (ctx : context.Context),
     (forall r, ModelRouterWebhook.ValidateDelete v ctx (runtime.ModelRouter r) = ([], None))
     /\ (forall g,
         ModelRouterWebhook.ValidateDelete v ctx (runtime.AiGateway g)
         = ([], Some (errors.New
              "expected a ModelRouter object but got *v1alpha1.AiGateway")))
     /\ (forall c,
         ModelRouterWebhook.ValidateDelete v ctx (runtime.AiGatewayClass c)
         = ([], Some (errors.New
              "expected a ModelRouter object but got *v1alpha1.AiGatewayClass")))
     /\ (forall c,
         ModelRouterWebhook.ValidateDelete v ctx (runtime.ModelRouterClass c)
         = ([], Some (errors.New
              "expected a ModelRouter object but got *v1alpha1.ModelRouterClass")))
     /\ (forall t,
         ModelRouterWebhook.ValidateDelete v ctx (runtime.Other t)
         = ([], Some (errors.New ("expected a ModelRouter object but got " +:+ t)))
         /\ strings.Contains ("expected a ModelRouter object but got " +:+ t)
              "ModelRouter" = true
         /\ strings.Contains ("expected a ModelRouter object but got " +:+ t) t = true)).
Proof.
  split; intros v ctx;
    (split; [reflexivity|]); (split; [reflexivity|]); (split; [reflexivity|]);
    (split; [reflexivity|]); intros t; (split; [reflexivity|]); split.
  - apply (stringsFacts.Contains_append_r "expected a ").
    apply (stringsFacts.Contains_prefix "AiGateway").
  - apply stringsFacts.Contains_append_r, stringsFacts.Contains_refl.
  - apply (stringsFacts.Contains_append_r "expected a ").
    apply (stringsFacts.Contains_prefix "ModelRouter").
  - apply stringsFacts.Contains_append_r, stringsFacts.Contains_refl.
Qed.

(** C8 at a gateway with an invalid spec, and at a router and a value of
    another type handed to the gateway's validator. *)
Lemma instance_ValidateDelete_checks_type_only_witness :
  AiGatewayWebhook.ValidateDelete AiGatewayWebhook.Build_AiGatewayCustomValidator
    context.Background (runtime.AiGateway (Examples.gateway (-1) []))
  = ([], None)
  /\ AiGatewayWebhook.ValidateDelete AiGatewayWebhook.Build_AiGatewayCustomValidator
       context.Background (runtime.ModelRouter (Examples.router "" 0 []))
     = ([], Some (errors.New "expected a AiGateway object but got *v1alpha1.ModelRouter"))
  /\ AiGatewayWebhook.ValidateDelete AiGatewayWebhook.Build_AiGatewayCustomValidator
       context.Background (runtime.Other "*v1.Pod")
     = ([], Some (errors.New "expected a AiGateway object but got *v1.Pod")).
Proof.
  destruct (proj1 instance_ValidateDelete_checks_type_only
              AiGatewayWebhook.Build_AiGatewayCustomValidator context.Background)
    as (Hg & _ & Hr & _ & Ht).
  split; [apply Hg|]. split; [apply Hr|]. exact (proj1 (Ht "*v1.Pod")).
Defined.

(** C9. [ValidateUpdate] never reads the prior object: with the same
    proposed object, and for a class kind the same client, two prior
    objects give the same result, and the same calls on the client. *)
Theorem ValidateUpdate_ignores_prior_object (escapeRune : string -> string * nat) :
  (forall (v : AiGatewayWebhook.AiGatewayCustomValidator) (ctx : context.Context)
      (oldObj1 oldObj2 newObj : runtime.Object),
     AiGatewayWebhook.ValidateUpdate escapeRune v ctx oldObj1 newObj
     = AiGatewayWebhook.ValidateUpdate escapeRune v ctx oldObj2 newObj)
  /\ (forall (v : ModelRouterWebhook.ModelRouterCustomValidator) (ctx : context.Context)
        (oldObj1 oldObj2 newObj : runtime.Object),
     ModelRouterWebhook.ValidateUpdate escapeRune v ctx oldObj1 newObj
     = ModelRouterWebhook.ValidateUpdate escapeRune v ctx oldObj2 newObj)
  /\ (forall (v : AiGatewayClassWebhook.AiGatewayClassCustomValidator)
        (ctx : context.Context) (oldObj1 oldObj2 newObj : runtime.Object),
     AiGatewayClassWebhook.ValidateUpdate escapeRune v ctx oldObj1 newObj
     = AiGatewayClassWebhook.ValidateUpdate escapeRune v ctx oldObj2 newObj)
  /\ (forall (v : ModelRouterClassWebhook.ModelRouterClassCustomValidator)
        (ctx : context.Context) (oldObj1 oldObj2 newObj : runtime.Object),
     ModelRouterClassWebhook.ValidateUpdate escapeRune v ctx oldObj1 newObj
     = ModelRouterClassWebhook.ValidateUpdate escapeRune v ctx oldObj2 newObj).
Proof. repeat split. Qed.

(** ** Class kinds: AiGatewayClass and ModelRouterClass *)

Section ScanFacts.
Context {A : Type} (meta : A -> metav1.ObjectMeta) (key : string).

(** The test of the code is the property of the annotations. *)
Lemma marked_spec (a : A) : marked meta key a = true <-> marksDefault key (meta a).
Proof.
  unfold marked, marksDefault, metav1.GetAnnotations.
  destruct (metav1.Annotations (meta a)) as [entries|]; simpl.
  - split.
    + intros H. exists entries. split; [reflexivity|].
      apply String.eqb_eq in H. destruct (entries !! key) as [x|]; simpl in H.
      * rewrite H. reflexivity.
      * discriminate H.
    + intros (entries' & [= <-] & H). rewrite H. reflexivity.
  - split; [discriminate|]. intros (entries & H & _). discriminate H.
Qed.

Lemma firstConflict_Some (name : string) (items : list A) (e : A) :
  firstConflict meta key name items = Some e ->
  In e items /\ conflictsWith meta key name e.
Proof.
  induction items as [|x items IH]; simpl; [discriminate|].
  unfold metav1.GetName.
  destruct (String.eqb_spec (metav1.Name (meta x)) name) as [Hn|Hn].
  - intros H. destruct (IH H) as [Hin Hc]. auto.
  - destruct (marked meta key x) eqn:Hm.
    + intros [= <-]. split; [left; reflexivity|].
      split; [exact Hn | apply marked_spec; exact Hm].
    + intros H. destruct (IH H) as [Hin Hc]. auto.
Qed.

Lemma firstConflict_None (name : string) (items : list A) :
  firstConflict meta key name items = None ->
  forall e, In e items -> ~ conflictsWith meta key name e.
Proof.
  induction items as [|x items IH]; simpl; [intros _ e []|].
  unfold metav1.GetName.
  destruct (String.eqb_spec (metav1.Name (meta x)) name) as [Hn|Hn].
  - intros H e [<-|Hin]; [intros [Hne _]; contradiction | exact (IH H e Hin)].
  - destruct (marked meta key x) eqn:Hm; [discriminate|].
    intros H e [<-|Hin]; [|exact (IH H e Hin)].
    intros [_ Hd]. apply marked_spec in Hd. congruence.
Qed.

(** A listed object with the name of the candidate changes nothing. *)
Lemma firstConflict_same_name (name : string) (before after : list A) (same : A) :
  metav1.Name (meta same) = name ->
  firstConflict meta key name (before ++ same :: after)
  = firstConflict meta key name (before ++ after).
Proof.
  intros Hs. induction before as [|x before IH]; simpl.
  - unfold metav1.GetName. rewrite Hs, String.eqb_refl. reflexivity.
  - rewrite IH. reflexivity.
Qed.

Lemma firstConflict_all_same_name (name : string) (items : list A) :
  Forall (fun e => metav1.Name (meta e) = name) items ->
  firstConflict meta key name items = None.
Proof.
  induction 1 as [|x items Hx _ IH]; simpl; [reflexivity|].
  unfold metav1.GetName. rewrite Hx, String.eqb_refl. exact IH.
Qed.

End ScanFacts.

(** The two loops, in terms of the first conflict. *)
Lemma gatewayClass_scanItems (c : AiGatewayClassTypes.AiGatewayClass)
    (items : list AiGatewayClassTypes.AiGatewayClass) (allErrs : field.ErrorList) :
  AiGatewayClassWebhook.scanItems c items allErrs =
    allErrs ++
    match firstConflict AiGatewayClassTypes.ObjectMeta
            AiGatewayClassWebhook.DefaultClassAnnotation
            (metav1.Name (AiGatewayClassTypes.ObjectMeta c)) items with
    | Some e => [conflictError AiGatewayClassWebhook.DefaultClassAnnotation "AiGatewayClass"
                   (metav1.Name (AiGatewayClassTypes.ObjectMeta e))]
    | None => []
    end.
Proof.
  induction items as [|x items IH]; simpl; [rewrite app_nil_r; reflexivity|].
  unfold metav1.GetName in *.
  destruct (String.eqb (metav1.Name (AiGatewayClassTypes.ObjectMeta x))
              (metav1.Name (AiGatewayClassTypes.ObjectMeta c))); [exact IH|].
  unfold marked.
  destruct (notNil (metav1.GetAnnotations (AiGatewayClassTypes.ObjectMeta x))
            && String.eqb (mapIndex (metav1.GetAnnotations (AiGatewayClassTypes.ObjectMeta x))
                             AiGatewayClassWebhook.DefaultClassAnnotation) "true");
    [reflexivity | exact IH].
Qed.

Lemma routerClass_scanItems (c : ModelRouterClassTypes.ModelRouterClass)
    (items : list ModelRouterClassTypes.ModelRouterClass) (allErrs : field.ErrorList) :
  ModelRouterClassWebhook.scanItems c items allErrs =
    allErrs ++
    match firstConflict ModelRouterClassTypes.ObjectMeta
            ModelRouterClassWebhook.DefaultClassAnnotation
            (metav1.Name (ModelRouterClassTypes.ObjectMeta c)) items with
    | Some e => [conflictError ModelRouterClassWebhook.DefaultClassAnnotation "ModelRouterClass"
                   (metav1.Name (ModelRouterClassTypes.ObjectMeta e))]
    | None => []
    end.
Proof.
  induction items as [|x items IH]; simpl; [rewrite app_nil_r; reflexivity|].
  unfold metav1.GetName in *.
  destruct (String.eqb (metav1.Name (ModelRouterClassTypes.ObjectMeta x))
              (metav1.Name (ModelRouterClassTypes.ObjectMeta c))); [exact IH|].
  unfold marked.
  destruct (notNil (metav1.GetAnnotations (ModelRouterClassTypes.ObjectMeta x))
            && String.eqb (mapIndex (metav1.GetAnnotations (ModelRouterClassTypes.ObjectMeta x))
                             ModelRouterClassWebhook.DefaultClassAnnotation) "true");
    [reflexivity | exact IH].
Qed.

Section OutcomeFacts.
Variable escapeRune : string -> string * nat.

Lemma gatewayClass_outcome (v : AiGatewayClassWebhook.AiGatewayClassCustomValidator)
    (ctx : context.Context) (c : AiGatewayClassTypes.AiGatewayClass) :
  AiGatewayClassWebhook.validateAiGatewayClass escapeRune v ctx c =
    classOutcome escapeRune AiGatewayClassTypes.ObjectMeta
      AiGatewayClassWebhook.DefaultClassAnnotation "AiGatewayClass" ctx c
      (client.List (AiGatewayClassWebhook.Client v) ctx).
Proof.
  unfold AiGatewayClassWebhook.validateAiGatewayClass, classOutcome, marked.
  destruct (notNil _ && _); [|reflexivity].
  destruct (client.List (AiGatewayClassWebhook.Client v) ctx) as [items|cause];
    [|reflexivity].
  rewrite gatewayClass_scanItems.
  destruct (firstConflict _ _ _ items); reflexivity.
Qed.

Lemma routerClass_outcome (v : ModelRouterClassWebhook.ModelRouterClassCustomValidator)
    (ctx : context.Context) (c : ModelRouterClassTypes.ModelRouterClass) :
  ModelRouterClassWebhook.validateModelRouterClass escapeRune v ctx c =
    classOutcome escapeRune ModelRouterClassTypes.ObjectMeta
      ModelRouterClassWebhook.DefaultClassAnnotation "ModelRouterClass" ctx c
      (client.List (ModelRouterClassWebhook.Client v) ctx).
Proof.
  unfold ModelRouterClassWebhook.validateModelRouterClass, classOutcome, marked.
  destruct (notNil _ && _); [|reflexivity].
  destruct (client.List (ModelRouterClassWebhook.Client v) ctx) as [items|cause];
    [|reflexivity].
  rewrite routerClass_scanItems.
  destruct (firstConflict _ _ _ items); reflexivity.
Qed.

Context {A : Type} (meta : A -> metav1.ObjectMeta) (key kind : string).

Lemma outcome_unmarked (ctx : context.Context) (c : A) (listing : client.ListResult A) :
  ~ marksDefault key (meta c) ->
  classOutcome escapeRune meta key kind ctx c listing = ([], ([], None)).
Proof.
  intros H. unfold classOutcome.
  destruct (marked meta key c) eqn:E; [|reflexivity].
  apply marked_spec in E. contradiction.
Qed.

Lemma outcome_rejected (ctx : context.Context) (c : A) (items : list A) (err : error) :
  (classOutcome escapeRune meta key kind ctx c (client.Listed items)).2.2 = Some err ->
  marksDefault key (meta c)
  /\ exists e, In e items /\ conflictsWith meta key (metav1.Name (meta c)) e
       /\ err = Aggregate [conflictError key kind (metav1.Name (meta e))].
Proof.
  unfold classOutcome. destruct (marked meta key c) eqn:E; [|discriminate].
  apply marked_spec in E. simpl.
  destruct (firstConflict meta key (metav1.Name (meta c)) items) as [e|] eqn:F;
    [|discriminate].
  intros [= <-]. split; [exact E|]. exists e.
  destruct (firstConflict_Some meta key _ _ _ F) as [Hin Hc]. auto.
Qed.

Lemma outcome_conflict (ctx : context.Context) (c : A) (items : list A) (e : A) :
  marksDefault key (meta c) -> In e items ->
  conflictsWith meta key (metav1.Name (meta c)) e ->
  (classOutcome escapeRune meta key kind ctx c (client.Listed items)).2.2 <> None.
Proof.
  intros Hc Hin He. unfold classOutcome.
  apply marked_spec in Hc. rewrite Hc. simpl.
  destruct (firstConflict meta key (metav1.Name (meta c)) items) as [x|] eqn:F;
    [discriminate|].
  exfalso. exact (firstConflict_None meta key _ _ F e Hin He).
Qed.

Lemma outcome_failed (ctx : context.Context) (c : A) (cause : error) :
  marksDefault key (meta c) ->
  classOutcome escapeRune meta key kind ctx c (client.Failed cause) =
    ([client.ListCall ctx],
     ([], Some (wrapError
                  ("failed to list " +:+ kind +:+ " resources: "
                   +:+ errors.Error escapeRune cause) cause))).
Proof.
  intros Hc. unfold classOutcome. apply marked_spec in Hc. rewrite Hc. reflexivity.
Qed.

Lemma outcome_same_name (ctx : context.Context) (c same : A) (before after : list A) :
  metav1.Name (meta same) = metav1.Name (meta c) ->
  classOutcome escapeRune meta key kind ctx c (client.Listed (before ++ same :: after))
  = classOutcome escapeRune meta key kind ctx c (client.Listed (before ++ after)).
Proof.
  intros H. unfold classOutcome.
  rewrite (firstConflict_same_name meta key _ before after same H). reflexivity.
Qed.

Lemma outcome_all_same_name (ctx : context.Context) (c : A) (items : list A) :
  Forall (fun e => metav1.Name (meta e) = metav1.Name (meta c)) items ->
  (classOutcome escapeRune meta key kind ctx c (client.Listed items)).2 = ([], None).
Proof.
  intros H. unfold classOutcome.
  rewrite (firstConflict_all_same_name meta key _ items H).
  destruct (marked meta key c); reflexivity.
Qed.

(** The message of a conflict holds the name of the conflicting object. *)
Lemma conflict_message_names (existing : string) :
  strings.Contains
    (errors.Error escapeRune (Aggregate [conflictError key kind existing]))
    existing = true.
Proof.
  unfold errors.Error, field.Error_, field.ErrorBody, conflictError.
  cbn [field.Detail field.BadValue field.Field].
  apply stringsFacts.Contains_append_r, stringsFacts.Contains_append_r.
  replace (String.eqb ("another " +:+ kind +:+ " '" +:+ existing
     +:+ "' already has the default class annotation set to 'true'. Only one "
     +:+ kind +:+ " can be marked as default") "") with false by reflexivity.
  do 5 apply stringsFacts.Contains_append_r.
  apply stringsFacts.Contains_prefix.
Qed.

End OutcomeFacts.

Section ClassClaims.
Variable escapeRune : string -> string * nat.

(** C1. For a class candidate of either family, [ValidateCreate] and
    [ValidateUpdate] agree. A candidate whose annotations do not map the
    reserved key to "true" is accepted without a call on the client. When
    the listing succeeds, the candidate is rejected exactly when it is so
    marked and some listed object with another name is so marked too, and
    the message of the rejection holds the name of such an object. *)
Theorem default_singleton_validation :
  (forall (v : AiGatewayClassWebhook.AiGatewayClassCustomValidator) (ctx : context.Context)
      (oldObj : runtime.Object) (c : AiGatewayClassTypes.AiGatewayClass),
     AiGatewayClassWebhook.ValidateUpdate escapeRune v ctx oldObj (runtime.AiGatewayClass c)
     = AiGatewayClassWebhook.ValidateCreate escapeRune v ctx (runtime.AiGatewayClass c)
     /\ (~ marksDefault AiGatewayClassWebhook.DefaultClassAnnotation
             (AiGatewayClassTypes.ObjectMeta c) ->
         AiGatewayClassWebhook.ValidateCreate escapeRune v ctx (runtime.AiGatewayClass c)
         = ([], ([], None)))
     /\ (forall items,
         client.List (AiGatewayClassWebhook.Client v) ctx = client.Listed items ->
         ((AiGatewayClassWebhook.ValidateCreate escapeRune v ctx
             (runtime.AiGatewayClass c)).2.2 <> None
          <-> marksDefault AiGatewayClassWebhook.DefaultClassAnnotation
                (AiGatewayClassTypes.ObjectMeta c)
              /\ exists e, In e items
                   /\ conflictsWith AiGatewayClassTypes.ObjectMeta
                        AiGatewayClassWebhook.DefaultClassAnnotation
                        (metav1.Name (AiGatewayClassTypes.ObjectMeta c)) e)
         /\ (forall err,
             (AiGatewayClassWebhook.ValidateCreate escapeRune v ctx
                (runtime.AiGatewayClass c)).2.2 = Some err ->
             exists e, In e items
               /\ conflictsWith AiGatewayClassTypes.ObjectMeta
                    AiGatewayClassWebhook.DefaultClassAnnotation
                    (metav1.Name (AiGatewayClassTypes.ObjectMeta c)) e
               /\ strings.Contains (errors.Error escapeRune err)
                    (metav1.Name (AiGatewayClassTypes.ObjectMeta e)) = true)))
  /\ (forall (v : ModelRouterClassWebhook.ModelRouterClassCustomValidator)
        (ctx : context.Context) (oldObj : runtime.Object)
        (c : ModelRouterClassTypes.ModelRouterClass),
     ModelRouterClassWebhook.ValidateUpdate escapeRune v ctx oldObj (runtime.ModelRouterClass c)
     = ModelRouterClassWebhook.ValidateCreate escapeRune v ctx (runtime.ModelRouterClass c)
     /\ (~ marksDefault ModelRouterClassWebhook.DefaultClassAnnotation
             (ModelRouterClassTypes.ObjectMeta c) ->
         ModelRouterClassWebhook.ValidateCreate escapeRune v ctx (runtime.ModelRouterClass c)
         = ([], ([], None)))
     /\ (forall items,
         client.List (ModelRouterClassWebhook.Client v) ctx = client.Listed items ->
         ((ModelRouterClassWebhook.ValidateCreate escapeRune v ctx
             (runtime.ModelRouterClass c)).2.2 <> None
          <-> marksDefault ModelRouterClassWebhook.DefaultClassAnnotation
                (ModelRouterClassTypes.ObjectMeta c)
              /\ exists e, In e items
                   /\ conflictsWith ModelRouterClassTypes.ObjectMeta
                        ModelRouterClassWebhook.DefaultClassAnnotation
                        (metav1.Name (ModelRouterClassTypes.ObjectMeta c)) e)
         /\ (forall err,
             (ModelRouterClassWebhook.ValidateCreate escapeRune v ctx
                (runtime.ModelRouterClass c)).2.2 = Some err ->
             exists e, In e items
               /\ conflictsWith ModelRouterClassTypes.ObjectMeta
                    ModelRouterClassWebhook.DefaultClassAnnotation
                    (metav1.Name (ModelRouterClassTypes.ObjectMeta c)) e
               /\ strings.Contains (errors.Error escapeRune err)
                    (metav1.Name (ModelRouterClassTypes.ObjectMeta e)) = true))).
Proof.
  split; intros v ctx oldObj c; (split; [reflexivity|]); simpl.
  - rewrite gatewayClass_outcome. split; [apply outcome_unmarked|].
    intros items ->. split; [split|].
    + intros H.
      destruct (classOutcome escapeRune AiGatewayClassTypes.ObjectMeta _ _ ctx c
                  (client.Listed items)).2.2 as [err|] eqn:E; [|contradiction].
      destruct (outcome_rejected escapeRune _ _ _ _ _ _ _ E) as (Hc & e & Hin & He & _).
      split; [exact Hc|]. exists e. auto.
    + intros (Hc & e & Hin & He). exact (outcome_conflict escapeRune _ _ _ _ _ _ _ Hc Hin He).
    + intros err E.
      destruct (outcome_rejected escapeRune _ _ _ _ _ _ _ E) as (_ & e & Hin & He & ->).
      exists e. split; [exact Hin|]. split; [exact He|]. apply conflict_message_names.
  - rewrite routerClass_outcome. split; [apply outcome_unmarked|].
    intros items ->. split; [split|].
    + intros H.
      destruct (classOutcome escapeRune ModelRouterClassTypes.ObjectMeta _ _ ctx c
                  (client.Listed items)).2.2 as [err|] eqn:E; [|contradiction].
      destruct (outcome_rejected escapeRune _ _ _ _ _ _ _ E) as (Hc & e & Hin & He & _).
      split; [exact Hc|]. exists e. auto.
    + intros (Hc & e & Hin & He). exact (outcome_conflict escapeRune _ _ _ _ _ _ _ Hc Hin He).
    + intros err E.
      destruct (outcome_rejected escapeRune _ _ _ _ _ _ _ E) as (_ & e & Hin & He & ->).
      exists e. split; [exact Hin|]. split; [exact He|]. apply conflict_message_names.
Qed.

(** C5. When the candidate is marked as the default and the listing fails,
    [ValidateCreate] and [ValidateUpdate] make the one listing call and
    return an error that wraps the failure: its message ends in the
    message of the failure, and it unwraps to the failure. No validation
    whose listing succeeds returns that error. *)
Theorem listing_failure_fails_closed :
  (forall (v : AiGatewayClassWebhook.AiGatewayClassCustomValidator) (ctx : context.Context)
      (oldObj : runtime.Object) (c : AiGatewayClassTypes.AiGatewayClass) (cause : error),
     marksDefault AiGatewayClassWebhook.DefaultClassAnnotation
       (AiGatewayClassTypes.ObjectMeta c) ->
     client.List (AiGatewayClassWebhook.Client v) ctx = client.Failed cause ->
     exists err,
       AiGatewayClassWebhook.ValidateCreate escapeRune v ctx (runtime.AiGatewayClass c)
       = ([client.ListCall ctx], ([], Some err))
       /\ AiGatewayClassWebhook.ValidateUpdate escapeRune v ctx oldObj (runtime.AiGatewayClass c)
          = ([client.ListCall ctx], ([], Some err))
       /\ errors.Error escapeRune err
          = "failed to list AiGatewayClass resources: " +:+ errors.Error escapeRune cause
       /\ errors.Unwrap err = Some cause
       /\ (forall v' ctx' c' items,
           client.List (AiGatewayClassWebhook.Client v') ctx' = client.Listed items ->
           (AiGatewayClassWebhook.validateAiGatewayClass escapeRune v' ctx' c').2.2
           <> Some err))
  /\ (forall (v : ModelRouterClassWebhook.ModelRouterClassCustomValidator)
        (ctx : context.Context) (oldObj : runtime.Object)
        (c : ModelRouterClassTypes.ModelRouterClass) (cause : error),
     marksDefault ModelRouterClassWebhook.DefaultClassAnnotation
       (ModelRouterClassTypes.ObjectMeta c) ->
     client.List (ModelRouterClassWebhook.Client v) ctx = client.Failed cause ->
     exists err,
       ModelRouterClassWebhook.ValidateCreate escapeRune v ctx (runtime.ModelRouterClass c)
       = ([client.ListCall ctx], ([], Some err))
       /\ ModelRouterClassWebhook.ValidateUpdate escapeRune v ctx oldObj
            (runtime.ModelRouterClass c)
          = ([client.ListCall ctx], ([], Some err))
       /\ errors.Error escapeRune err
          = "failed to list ModelRouterClass resources: " +:+ errors.Error escapeRune cause
       /\ errors.Unwrap err = Some cause
       /\ (forall v' ctx' c' items,
           client.List (ModelRouterClassWebhook.Client v') ctx' = client.Listed items ->
           (ModelRouterClassWebhook.validateModelRouterClass escapeRune v' ctx' c').2.2
           <> Some err)).
Proof.
  split; intros v ctx oldObj c cause Hc Hl.
  - exists (wrapError ("failed to list AiGatewayClass resources: "
                       +:+ errors.Error escapeRune cause) cause).
    simpl. rewrite gatewayClass_outcome, Hl, (outcome_failed escapeRune _ _ _ _ _ _ Hc).
    repeat split. intros v' ctx' c' items Hl' E.
    rewrite gatewayClass_outcome, Hl' in E.
    destruct (outcome_rejected escapeRune _ _ _ _ _ _ _ E) as (_ & e & _ & _ & Heq).
    discriminate Heq.
  - exists (wrapError ("failed to list ModelRouterClass resources: "
                       +:+ errors.Error escapeRune cause) cause).
    simpl. rewrite routerClass_outcome, Hl, (outcome_failed escapeRune _ _ _ _ _ _ Hc).
    repeat split. intros v' ctx' c' items Hl' E.
    rewrite routerClass_outcome, Hl' in E.
    destruct (outcome_rejected escapeRune _ _ _ _ _ _ _ E) as (_ & e & _ & _ & Heq).
    discriminate Heq.
Qed.

(** C10. A listed object that has the name of the candidate has no part in
    the decision, whatever its namespace and annotations: the validation is
    the same with the object in the listing and without it, and a listing
    of objects that all have the name of the candidate never leads to a
    rejection. *)
Theorem same_name_never_conflicts :
  (forall (v v' : AiGatewayClassWebhook.AiGatewayClassCustomValidator)
      (ctx : context.Context) (c same : AiGatewayClassTypes.AiGatewayClass)
      (before after : list AiGatewayClassTypes.AiGatewayClass),
     metav1.Name (AiGatewayClassTypes.ObjectMeta same)
     = metav1.Name (AiGatewayClassTypes.ObjectMeta c) ->
     client.List (AiGatewayClassWebhook.Client v) ctx
     = client.Listed (before ++ same :: after) ->
     client.List (AiGatewayClassWebhook.Client v') ctx = client.Listed (before ++ after) ->
     AiGatewayClassWebhook.validateAiGatewayClass escapeRune v ctx c
     = AiGatewayClassWebhook.validateAiGatewayClass escapeRune v' ctx c)
  /\ (forall (v : AiGatewayClassWebhook.AiGatewayClassCustomValidator)
        (ctx : context.Context) (c : AiGatewayClassTypes.AiGatewayClass)
        (items : list AiGatewayClassTypes.AiGatewayClass),
     client.List (AiGatewayClassWebhook.Client v) ctx = client.Listed items ->
     Forall (fun e => metav1.Name (AiGatewayClassTypes.ObjectMeta e)
                      = metav1.Name (AiGatewayClassTypes.ObjectMeta c)) items ->
     (AiGatewayClassWebhook.validateAiGatewayClass escapeRune v ctx c).2 = ([], None))
  /\ (forall (v v' : ModelRouterClassWebhook.ModelRouterClassCustomValidator)
        (ctx : context.Context) (c same : ModelRouterClassTypes.ModelRouterClass)
        (before after : list ModelRouterClassTypes.ModelRouterClass),
     metav1.Name (ModelRouterClassTypes.ObjectMeta same)
     = metav1.Name (ModelRouterClassTypes.ObjectMeta c) ->
     client.List (ModelRouterClassWebhook.Client v) ctx
     = client.Listed (before ++ same :: after) ->
     client.List (ModelRouterClassWebhook.Client v') ctx = client.Listed (before ++ after) ->
     ModelRouterClassWebhook.validateModelRouterClass escapeRune v ctx c
     = ModelRouterClassWebhook.validateModelRouterClass escapeRune v' ctx c)
  /\ (forall (v : ModelRouterClassWebhook.ModelRouterClassCustomValidator)
        (ctx : context.Context) (c : ModelRouterClassTypes.ModelRouterClass)
        (items : list ModelRouterClassTypes.ModelRouterClass),
     client.List (ModelRouterClassWebhook.Client v) ctx = client.Listed items ->
     Forall (fun e => metav1.Name (ModelRouterClassTypes.ObjectMeta e)
                      = metav1.Name (ModelRouterClassTypes.ObjectMeta c)) items ->
     (ModelRouterClassWebhook.validateModelRouterClass escapeRune v ctx c).2 = ([], None)).
Proof.
  split; [|split; [|split]].
  - intros v v' ctx c same before after Hn Hl Hl'.
    rewrite !gatewayClass_outcome, Hl, Hl'. apply outcome_same_name. exact Hn.
  - intros v ctx c items Hl Hall.
    rewrite gatewayClass_outcome, Hl. apply outcome_all_same_name. exact Hall.
  - intros v v' ctx c same before after Hn Hl Hl'.
    rewrite !routerClass_outcome, Hl, Hl'. apply outcome_same_name. exact Hn.
  - intros v ctx c items Hl Hall.
    rewrite routerClass_outcome, Hl. apply outcome_all_same_name. exact Hall.
Qed.

End ClassClaims.

(** C7. [ValidateDelete] of a class kind accepts every object: it makes no
    call on the client and returns no warning and no error, whatever the
    type of the object and whatever its annotations. *)
Theorem class_ValidateDelete_accepts_everything :
  (forall (v : AiGatewayClassWebhook.AiGatewayClassCustomValidator) (ctx : context.Context)
      (obj : runtime.Object),
     AiGatewayClassWebhook.ValidateDelete v ctx obj = ([], ([], None)))
  /\ (forall (v : ModelRouterClassWebhook.ModelRouterClassCustomValidator)
        (ctx : context.Context) (obj : runtime.Object),
     ModelRouterClassWebhook.ValidateDelete v ctx obj = ([], ([], None))).
Proof. split; intros v ctx obj; reflexivity. Qed.

(** C1 with a listing of a default class A and a plain class B: the
    default candidate C is rejected, the plain candidate D is accepted
    without a call. *)
Lemma default_singleton_validation_witness :
  client.List
    (AiGatewayClassWebhook.Client
       (AiGatewayClassWebhook.Build_AiGatewayClassCustomValidator
          (Examples.listing
             [Examples.gatewayClass "A"
                (Examples.isDefault AiGatewayClassWebhook.DefaultClassAnnotation);
              Examples.gatewayClass "B" None])))
    context.Background
  = client.Listed
      [Examples.gatewayClass "A"
         (Examples.isDefault AiGatewayClassWebhook.DefaultClassAnnotation);
       Examples.gatewayClass "B" None]
  /\ (AiGatewayClassWebhook.ValidateCreate escapeInvalid
        (AiGatewayClassWebhook.Build_AiGatewayClassCustomValidator
           (Examples.listing
              [Examples.gatewayClass "A"
                 (Examples.isDefault AiGatewayClassWebhook.DefaultClassAnnotation);
               Examples.gatewayClass "B" None]))
        context.Background
        (runtime.AiGatewayClass
           (Examples.gatewayClass "C"
              (Examples.isDefault AiGatewayClassWebhook.DefaultClassAnnotation)))).2.2
     <> None
  /\ AiGatewayClassWebhook.ValidateCreate escapeInvalid
       (AiGatewayClassWebhook.Build_AiGatewayClassCustomValidator
          (Examples.listing
             [Examples.gatewayClass "A"
                (Examples.isDefault AiGatewayClassWebhook.DefaultClassAnnotation);
              Examples.gatewayClass "B" None]))
       context.Background
       (runtime.AiGatewayClass (Examples.gatewayClass "D" None))
     = ([], ([], None)).
Proof.
  pose proof (proj1 (default_singleton_validation escapeInvalid)) as H.
  set (key := AiGatewayClassWebhook.DefaultClassAnnotation) in *.
  set (a := Examples.gatewayClass "A" (Examples.isDefault key)) in *.
  set (items := [a; Examples.gatewayClass "B" None]) in *.
  set (v := AiGatewayClassWebhook.Build_AiGatewayClassCustomValidator
              (Examples.listing items)) in *.
  assert (Hmark : forall name,
            marksDefault key (Examples.meta name (Examples.isDefault key))).
  { intros name. exists {[ key := "true" ]}. split; [reflexivity|].
    apply lookup_singleton_eq. }
  split; [reflexivity|]. split.
  - destruct (H v context.Background (runtime.Other "")
                (Examples.gatewayClass "C" (Examples.isDefault key)))
      as (_ & _ & Hl).
    apply (proj1 (Hl items eq_refl)). split; [apply Hmark|].
    exists a. split; [left; reflexivity|]. split; [discriminate | apply Hmark].
  - destruct (H v context.Background (runtime.Other "") (Examples.gatewayClass "D" None))
      as (_ & Hun & _).
    apply Hun. intros (entries & Hsome & _). discriminate Hsome.
Defined.

(** C5 with a router-class client whose listing fails. *)
Lemma listing_failure_fails_closed_witness :
  client.List
    (ModelRouterClassWebhook.Client
       (ModelRouterClassWebhook.Build_ModelRouterClassCustomValidator
          (Examples.failing (errors.New "connection refused"))))
    context.Background
  = client.Failed (errors.New "connection refused")
  /\ exists err,
       ModelRouterClassWebhook.ValidateCreate escapeInvalid
         (ModelRouterClassWebhook.Build_ModelRouterClassCustomValidator
            (Examples.failing (errors.New "connection refused")))
         context.Background
         (runtime.ModelRouterClass
            (Examples.routerClass "A"
               (Examples.isDefault ModelRouterClassWebhook.DefaultClassAnnotation)))
       = ([client.ListCall context.Background], ([], Some err))
       /\ errors.Error escapeInvalid err
          = "failed to list ModelRouterClass resources: connection refused"
       /\ errors.Unwrap err = Some (errors.New "connection refused").
Proof.
  split; [reflexivity|].
  destruct (proj2 (listing_failure_fails_closed escapeInvalid)
              (ModelRouterClassWebhook.Build_ModelRouterClassCustomValidator
                 (Examples.failing (errors.New "connection refused")))
              context.Background (runtime.Other "")
              (Examples.routerClass "A"
                 (Examples.isDefault ModelRouterClassWebhook.DefaultClassAnnotation))
              (errors.New "connection refused"))
    as (err & Hc & _ & Hmsg & Hun & _).
  - exists {[ ModelRouterClassWebhook.DefaultClassAnnotation := "true" ]}.
    split; [reflexivity | apply lookup_singleton_eq].
  - reflexivity.
  - exists err. split; [exact Hc|]. split; [exact Hmsg | exact Hun].
Defined.

(** C10 with a default candidate A and a listing that holds A itself, as a
    default, before a plain class B. *)
Lemma same_name_never_conflicts_witness :
  metav1.Name (AiGatewayClassTypes.ObjectMeta
     (Examples.gatewayClass "A"
        (Examples.isDefault AiGatewayClassWebhook.DefaultClassAnnotation)))
  = "A"
  /\ AiGatewayClassWebhook.validateAiGatewayClass escapeInvalid
       (AiGatewayClassWebhook.Build_AiGatewayClassCustomValidator
          (Examples.listing
             [Examples.gatewayClass "A"
                (Examples.isDefault AiGatewayClassWebhook.DefaultClassAnnotation);
              Examples.gatewayClass "B" None]))
       context.Background
       (Examples.gatewayClass "A"
          (Examples.isDefault AiGatewayClassWebhook.DefaultClassAnnotation))
     = AiGatewayClassWebhook.validateAiGatewayClass escapeInvalid
         (AiGatewayClassWebhook.Build_AiGatewayClassCustomValidator
            (Examples.listing [Examples.gatewayClass "B" None]))
         context.Background
         (Examples.gatewayClass "A"
            (Examples.isDefault AiGatewayClassWebhook.DefaultClassAnnotation)).
Proof.
  split; [reflexivity|].
  apply (proj1 (same_name_never_conflicts escapeInvalid) _ _ context.Background
           (Examples.gatewayClass "A"
              (Examples.isDefault AiGatewayClassWebhook.DefaultClassAnnotation))
           (Examples.gatewayClass "A"
              (Examples.isDefault AiGatewayClassWebhook.DefaultClassAnnotation))
           [] [Examples.gatewayClass "B" None]); reflexivity.
Defined.

(** * Further properties *)

(** ** [strings.Cut] *)

Module cutRoundTrip.
Import strings stringsFacts.

Lemma substring_zero (s : string) : String.substring 0 0 s = "".
Proof. destruct s; reflexivity. Qed.

(** A string is the text before the first instance of [sub], then [sub],
    then the text after it. *)
Lemma Index_split (s sub : string) :
  0 <= Index s sub ->
  s = slice s 0 (Index s sub) +:+ sub +:+ slice s (Index s sub + len sub) (len s).
Proof.
  unfold slice, len. induction s as [|c s IH]; intros H.
  - destruct sub; simpl in H; [reflexivity | lia].
  - rewrite Index_cons in *.
    destruct (HasPrefix (String c s) sub) eqn:E.
    + destruct (HasPrefix_inv _ _ E) as [post Hp]. rewrite Hp.
      rewrite Z.sub_0_r. change (Z.to_nat 0) with 0%nat. rewrite substring_zero.
      simpl String.append at 2.
      replace (Z.to_nat (0 + Z.of_nat (String.length sub))) with (String.length sub) by lia.
      replace (Z.to_nat (Z.of_nat (String.length (sub +:+ post))
                         - (0 + Z.of_nat (String.length sub))))
        with (String.length post) by (rewrite length_append; lia).
      rewrite substring_suffix. reflexivity.
    + destruct (Z.ltb_spec (Index s sub) 0) as [Hlt|Hge]; [lia|].
      specialize (IH Hge). rewrite Z.sub_0_r in *.
      replace (Z.to_nat (Index s sub + 1)) with (S (Z.to_nat (Index s sub))) by lia.
      replace (Z.to_nat (Index s sub + 1 + Z.of_nat (String.length sub)))
        with (S (Z.to_nat (Index s sub + Z.of_nat (String.length sub)))) by lia.
      replace (Z.to_nat (Z.of_nat (String.length (String c s))
                         - (Index s sub + 1 + Z.of_nat (String.length sub))))
        with (Z.to_nat (Z.of_nat (String.length s)
                        - (Index s sub + Z.of_nat (String.length sub))))
        by (simpl String.length; lia).
      change (Z.to_nat 0) with 0%nat in *.
      simpl String.substring. simpl String.append. f_equal. exact IH.
Qed.

Lemma HasPrefix_extend (a rest sub : string) :
  HasPrefix a sub = true -> HasPrefix (a +:+ rest) sub = true.
Proof.
  intros H. destruct (HasPrefix_inv _ _ H) as [post ->].
  rewrite append_assoc. apply HasPrefix_append.
Qed.

(** The text before the first instance of [sub] holds no instance of it. *)
Lemma Index_before (s sub : string) :
  sub <> "" -> 0 <= Index s sub ->
  Contains (slice s 0 (Index s sub)) sub = false.
Proof.
  intros Hsub. unfold slice, Contains. induction s as [|c s IH]; intros H.
  - destruct sub; [contradiction | simpl in H; lia].
  - rewrite Index_cons in *. rewrite Z.sub_0_r in *.
    change (Z.to_nat 0) with 0%nat in *.
    destruct (HasPrefix (String c s) sub) eqn:E.
    + rewrite substring_zero. destruct sub; [contradiction | reflexivity].
    + destruct (Z.ltb_spec (Index s sub) 0) as [Hlt|Hge]; [lia|].
      specialize (IH Hge). apply Z.leb_gt in IH.
      replace (Z.to_nat (Index s sub + 1)) with (S (Z.to_nat (Index s sub))) by lia.
      simpl String.substring. rewrite Index_cons.
      destruct (HasPrefix (String c (String.substring 0 (Z.to_nat (Index s sub)) s)) sub)
        eqn:E'.
      * exfalso.
        pose proof (Index_split s sub Hge) as Hs. unfold slice in Hs.
        rewrite Z.sub_0_r in Hs. change (Z.to_nat 0) with 0%nat in Hs.
        apply (HasPrefix_extend _ (sub +:+ String.substring
                 (Z.to_nat (Index s sub + len sub))
                 (Z.to_nat (len s - (Index s sub + len sub))) s)) in E'.
        simpl String.append in E'. rewrite <- Hs in E'. congruence.
      * destruct (Z.ltb_spec (Index (String.substring 0 (Z.to_nat (Index s sub)) s) sub) 0);
          [reflexivity | lia].
Qed.

End cutRoundTrip.

(** X1. [strings.Cut] splits a string around the first instance of the
    separator: when it reports the separator found, the string is the part
    before, the separator and the part after, and the part before holds no
    instance of a separator that is not empty; when it reports it not
    found, the part before is the whole string, the part after is empty
    and the string holds no instance of the separator. *)
Theorem Cut_round_trip (s sep : string) :
  (strings.Cut s sep).2 = true
  /\ s = (strings.Cut s sep).1.1 +:+ sep +:+ (strings.Cut s sep).1.2
  /\ (sep <> "" -> strings.Contains (strings.Cut s sep).1.1 sep = false)
  \/ (strings.Cut s sep).2 = false
     /\ (strings.Cut s sep).1.1 = s
     /\ (strings.Cut s sep).1.2 = ""
     /\ strings.Contains s sep = false.
Proof.
  unfold strings.Cut. destruct (Z.leb_spec 0 (strings.Index s sep)) as [H|H].
  - left. simpl. split; [reflexivity|]. split; [apply cutRoundTrip.Index_split; exact H|].
    intros Hne. apply cutRoundTrip.Index_before; [exact Hne | exact H].
  - right. simpl. repeat split. unfold strings.Contains. apply Z.leb_gt. exact H.
Qed.

(** ** Instance kinds *)

Section InstanceFurther.
Variable escapeRune : string -> string * nat.

(** The loop of the gateway is the loop of the router on the names. *)
Lemma gateway_models_as_router (ms : list AiGatewayTypes.AiModel) :
  AiGatewayWebhook.validateAiModels escapeRune ms =
    ModelRouterWebhook.validateAiModels escapeRune
      (map (fun m => ModelRouterTypes.Build_AiModel (AiGatewayTypes.Name m)) ms).
Proof.
  induction ms as [|m ms IH]; [reflexivity|].
  simpl. destruct (String.eqb (AiGatewayTypes.Name m) ""); [reflexivity|].
  unfold AiGatewayWebhook.providerModelSeparator, ModelRouterWebhook.providerModelSeparator.
  destruct (strings.Cut (AiGatewayTypes.Name m) "/") as [[provider modelName] found].
  destruct (negb found || String.eqb provider "" || String.eqb modelName "");
    [reflexivity | exact IH].
Qed.

Lemma router_models_warnings (ms : list ModelRouterTypes.AiModel) :
  (ModelRouterWebhook.validateAiModels escapeRune ms).1 = [].
Proof.
  induction ms as [|m ms IH]; [reflexivity|].
  rewrite router_models_cons.
  destruct (String.eqb (ModelRouterTypes.Name m) ""); [reflexivity|].
  destruct (cutTest (ModelRouterTypes.Name m)); [reflexivity | exact IH].
Qed.

(** The loop accepts exactly the lists of well-formed names. *)
Lemma router_models_accept_iff (ms : list ModelRouterTypes.AiModel) :
  (ModelRouterWebhook.validateAiModels escapeRune ms).2 = None
  <-> Forall (fun x => wellFormed (ModelRouterTypes.Name x)) ms.
Proof.
  split.
  - induction ms as [|m ms IH]; [constructor|].
    rewrite router_models_cons.
    destruct (String.eqb (ModelRouterTypes.Name m) ""); [discriminate|].
    destruct (cutTest (ModelRouterTypes.Name m)) eqn:E; [discriminate|].
    intros H. constructor; [|exact (IH H)].
    destruct (cutFacts.wellFormed_or_malformed (ModelRouterTypes.Name m)) as [Hw|Hm];
      [exact Hw|].
    apply cutFacts.cutTest_malformed in Hm. congruence.
  - intros H. rewrite (router_models_accept escapeRune ms H). reflexivity.
Qed.

Lemma Forall_names (ms : list AiGatewayTypes.AiModel) :
  Forall (fun x => wellFormed (ModelRouterTypes.Name x))
    (map (fun m => ModelRouterTypes.Build_AiModel (AiGatewayTypes.Name m)) ms)
  <-> Forall (fun x => wellFormed (AiGatewayTypes.Name x)) ms.
Proof. rewrite Forall_map. reflexivity. Qed.

(** X2. [validateModelRouterSpec] accepts a router exactly when its type
    is not empty, its port is positive, it has at least one model and the
    name of every model splits at its first slash into a provider and a
    model that are not empty. *)
Theorem router_accepted_iff (v : ModelRouterWebhook.ModelRouterCustomValidator)
    (r : ModelRouterTypes.ModelRouter) :
  (ModelRouterWebhook.validateModelRouterSpec escapeRune v r).2 = None
  <-> ModelRouterTypes.Type_ (ModelRouterTypes.Spec r) <> ""
      /\ 0 < ModelRouterTypes.Port (ModelRouterTypes.Spec r)
      /\ ModelRouterTypes.AiModels (ModelRouterTypes.Spec r) <> []
      /\ Forall (fun x => wellFormed (ModelRouterTypes.Name x))
           (ModelRouterTypes.AiModels (ModelRouterTypes.Spec r)).
Proof.
  unfold ModelRouterWebhook.validateModelRouterSpec.
  destruct (String.eqb_spec (ModelRouterTypes.Type_ (ModelRouterTypes.Spec r)) "")
    as [Ht|Ht].
  { split; [discriminate | intros (H & _); contradiction]. }
  destruct (Z.leb_spec (ModelRouterTypes.Port (ModelRouterTypes.Spec r)) 0) as [Hp|Hp].
  { split; [discriminate | intros (_ & H & _); lia]. }
  destruct (ModelRouterTypes.AiModels (ModelRouterTypes.Spec r)) as [|m ms] eqn:E.
  { split; [discriminate | intros (_ & _ & H & _); contradiction]. }
  change (Nat.eqb (length (m :: ms)) 0) with false. cbv iota.
  rewrite router_models_accept_iff. split.
  - intros H. repeat split; [exact Ht | | discriminate | exact H]; lia.
  - intros (_ & _ & _ & H). exact H.
Qed.

(** X3. [validateAiGatewaySpec] accepts a gateway exactly when its port is
    positive, it has at least one model and the name of every model splits
    at its first slash into a provider and a model that are not empty. *)
Theorem gateway_accepted_iff (v : AiGatewayWebhook.AiGatewayCustomValidator)
    (g : AiGatewayTypes.AiGateway) :
  (AiGatewayWebhook.validateAiGatewaySpec escapeRune v g).2 = None
  <-> 0 < AiGatewayTypes.Port (AiGatewayTypes.Spec g)
      /\ AiGatewayTypes.AiModels (AiGatewayTypes.Spec g) <> []
      /\ Forall (fun x => wellFormed (AiGatewayTypes.Name x))
           (AiGatewayTypes.AiModels (AiGatewayTypes.Spec g)).
Proof.
  unfold AiGatewayWebhook.validateAiGatewaySpec.
  destruct (Z.leb_spec (AiGatewayTypes.Port (AiGatewayTypes.Spec g)) 0) as [Hp|Hp].
  { split; [discriminate | intros (H & _); lia]. }
  destruct (AiGatewayTypes.AiModels (AiGatewayTypes.Spec g)) as [|m ms] eqn:E.
  { split; [discriminate | intros (_ & H & _); contradiction]. }
  change (Nat.eqb (length (m :: ms)) 0) with false. cbv iota.
  rewrite gateway_models_as_router, router_models_accept_iff, Forall_names. split.
  - intros H. repeat split; [lia | discriminate | exact H].
  - intros (_ & _ & H). exact H.
Qed.

(** X4. [validateAiGatewaySpec] reads of a gateway its port and the names
    of its models, in order, and nothing else: two gateways that agree on
    these get the same result, whatever their providers, class name and
    metadata. *)
Theorem gateway_validation_reads_port_and_names
    (v v' : AiGatewayWebhook.AiGatewayCustomValidator)
    (g g' : AiGatewayTypes.AiGateway) :
  AiGatewayTypes.Port (AiGatewayTypes.Spec g) = AiGatewayTypes.Port (AiGatewayTypes.Spec g') ->
  map AiGatewayTypes.Name (AiGatewayTypes.AiModels (AiGatewayTypes.Spec g))
  = map AiGatewayTypes.Name (AiGatewayTypes.AiModels (AiGatewayTypes.Spec g')) ->
  AiGatewayWebhook.validateAiGatewaySpec escapeRune v g
  = AiGatewayWebhook.validateAiGatewaySpec escapeRune v' g'.
Proof.
  intros Hp Hn. unfold AiGatewayWebhook.validateAiGatewaySpec.
  rewrite <- Hp.
  assert (Hlen : length (AiGatewayTypes.AiModels (AiGatewayTypes.Spec g))
                 = length (AiGatewayTypes.AiModels (AiGatewayTypes.Spec g'))).
  { rewrite <- (length_map AiGatewayTypes.Name), Hn, length_map. reflexivity. }
  rewrite <- Hlen, !gateway_models_as_router.
  rewrite <- !(map_map AiGatewayTypes.Name ModelRouterTypes.Build_AiModel), Hn.
  reflexivity.
Qed.

End InstanceFurther.

Section InstanceEdges.
Variable escapeRune : string -> string * nat.

Lemma gateway_models_warnings (ms : list AiGatewayTypes.AiModel) :
  (AiGatewayWebhook.validateAiModels escapeRune ms).1 = [].
Proof. rewrite gateway_models_as_router. apply router_models_warnings. Qed.

(** Past the port rule the gateway is accepted for its models alone. *)
Lemma gateway_accept_positive (v : AiGatewayWebhook.AiGatewayCustomValidator)
    (g : AiGatewayTypes.AiGateway) :
  0 < AiGatewayTypes.Port (AiGatewayTypes.Spec g) ->
  (AiGatewayWebhook.validateAiGatewaySpec escapeRune v g).2 = None
  <-> AiGatewayTypes.AiModels (AiGatewayTypes.Spec g) <> []
      /\ Forall (fun x => wellFormed (AiGatewayTypes.Name x))
           (AiGatewayTypes.AiModels (AiGatewayTypes.Spec g)).
Proof.
  intros Hp. unfold AiGatewayWebhook.validateAiGatewaySpec.
  destruct (Z.leb_spec (AiGatewayTypes.Port (AiGatewayTypes.Spec g)) 0); [lia|].
  destruct (AiGatewayTypes.AiModels (AiGatewayTypes.Spec g)) as [|m ms].
  { split; [discriminate | intros (Hnil & _); contradiction]. }
  change (Nat.eqb (length (m :: ms)) 0) with false. cbv iota.
  rewrite gateway_models_as_router, router_models_accept_iff, Forall_names. split.
  - intros Hall. split; [discriminate | exact Hall].
  - intros (_ & Hall). exact Hall.
Qed.

Lemma router_accept_positive (v : ModelRouterWebhook.ModelRouterCustomValidator)
    (r : ModelRouterTypes.ModelRouter) :
  ModelRouterTypes.Type_ (ModelRouterTypes.Spec r) <> "" ->
  0 < ModelRouterTypes.Port (ModelRouterTypes.Spec r) ->
  (ModelRouterWebhook.validateModelRouterSpec escapeRune v r).2 = None
  <-> ModelRouterTypes.AiModels (ModelRouterTypes.Spec r) <> []
      /\ Forall (fun x => wellFormed (ModelRouterTypes.Name x))
           (ModelRouterTypes.AiModels (ModelRouterTypes.Spec r)).
Proof.
  intros Ht Hp. unfold ModelRouterWebhook.validateModelRouterSpec.
  rewrite (cutFacts.eqb_empty_false _ Ht).
  destruct (Z.leb_spec (ModelRouterTypes.Port (ModelRouterTypes.Spec r)) 0); [lia|].
  destruct (ModelRouterTypes.AiModels (ModelRouterTypes.Spec r)) as [|m ms].
  { split; [discriminate | intros (Hnil & _); contradiction]. }
  change (Nat.eqb (length (m :: ms)) 0) with false. cbv iota.
  rewrite router_models_accept_iff. split.
  - intros Hall. split; [discriminate | exact Hall].
  - intros (_ & Hall). exact Hall.
Qed.

(** X5. An instance without models is always rejected, whatever its other
    fields; when the rules before it pass, the error is the one on the
    missing models. *)
Theorem empty_model_list_rejected :
  (forall (v : AiGatewayWebhook.AiGatewayCustomValidator) (g : AiGatewayTypes.AiGateway),
     AiGatewayTypes.AiModels (AiGatewayTypes.Spec g) = [] ->
     (exists err, AiGatewayWebhook.validateAiGatewaySpec escapeRune v g = ([], Some err))
     /\ (0 < AiGatewayTypes.Port (AiGatewayTypes.Spec g) ->
         AiGatewayWebhook.validateAiGatewaySpec escapeRune v g
         = ([], Some (errors.New "no AI models specified in AiGateway"))))
  /\ (forall (v : ModelRouterWebhook.ModelRouterCustomValidator)
        (r : ModelRouterTypes.ModelRouter),
     ModelRouterTypes.AiModels (ModelRouterTypes.Spec r) = [] ->
     (exists err, ModelRouterWebhook.validateModelRouterSpec escapeRune v r = ([], Some err))
     /\ (ModelRouterTypes.Type_ (ModelRouterTypes.Spec r) <> "" ->
         0 < ModelRouterTypes.Port (ModelRouterTypes.Spec r) ->
         ModelRouterWebhook.validateModelRouterSpec escapeRune v r
         = ([], Some (errors.New "no AI models specified in ModelRouter")))).
Proof.
  split.
  - intros v g Hm. unfold AiGatewayWebhook.validateAiGatewaySpec. rewrite Hm.
    destruct (Z.leb_spec (AiGatewayTypes.Port (AiGatewayTypes.Spec g)) 0).
    + split; [eexists; reflexivity | lia].
    + split; [eexists; reflexivity | reflexivity].
  - intros v r Hm. unfold ModelRouterWebhook.validateModelRouterSpec. rewrite Hm.
    destruct (String.eqb_spec (ModelRouterTypes.Type_ (ModelRouterTypes.Spec r)) "").
    + split; [eexists; reflexivity | contradiction].
    + destruct (Z.leb_spec (ModelRouterTypes.Port (ModelRouterTypes.Spec r)) 0).
      * split; [eexists; reflexivity | lia].
      * split; [eexists; reflexivity | reflexivity].
Qed.

(** X6. After [Default], a port that was left at 0 is never the reason for
    a rejection: the defaulted instance is accepted exactly when its
    incoming port is not negative (and, for a router, its type not empty),
    it has a model and every model name is well formed. An instance that
    the validator accepts is left as it is by [Default]. *)
Theorem validation_after_Default :
  (forall (d : AiGatewayWebhook.AiGatewayCustomDefaulter)
      (v : AiGatewayWebhook.AiGatewayCustomValidator) (ctx : context.Context)
      (g : AiGatewayTypes.AiGateway),
     ((AiGatewayWebhook.ValidateCreate escapeRune v ctx
         (AiGatewayWebhook.Default d ctx (runtime.AiGateway g)).1).2 = None
      <-> 0 <= AiGatewayTypes.Port (AiGatewayTypes.Spec g)
          /\ AiGatewayTypes.AiModels (AiGatewayTypes.Spec g) <> []
          /\ Forall (fun x => wellFormed (AiGatewayTypes.Name x))
               (AiGatewayTypes.AiModels (AiGatewayTypes.Spec g)))
     /\ ((AiGatewayWebhook.ValidateCreate escapeRune v ctx (runtime.AiGateway g)).2 = None ->
         AiGatewayWebhook.Default d ctx (runtime.AiGateway g) = (runtime.AiGateway g, None)))
  /\ (forall (d : ModelRouterWebhook.ModelRouterCustomDefaulter)
        (v : ModelRouterWebhook.ModelRouterCustomValidator) (ctx : context.Context)
        (r : ModelRouterTypes.ModelRouter),
     ((ModelRouterWebhook.ValidateCreate escapeRune v ctx
         (ModelRouterWebhook.Default d ctx (runtime.ModelRouter r)).1).2 = None
      <-> ModelRouterTypes.Type_ (ModelRouterTypes.Spec r) <> ""
          /\ 0 <= ModelRouterTypes.Port (ModelRouterTypes.Spec r)
          /\ ModelRouterTypes.AiModels (ModelRouterTypes.Spec r) <> []
          /\ Forall (fun x => wellFormed (ModelRouterTypes.Name x))
               (ModelRouterTypes.AiModels (ModelRouterTypes.Spec r)))
     /\ ((ModelRouterWebhook.ValidateCreate escapeRune v ctx (runtime.ModelRouter r)).2 = None ->
         ModelRouterWebhook.Default d ctx (runtime.ModelRouter r)
         = (runtime.ModelRouter r, None))).
Proof.
  split.
  - intros d v ctx g. cbn [AiGatewayWebhook.Default AiGatewayWebhook.ValidateCreate fst].
    destruct (Z.eqb_spec (AiGatewayTypes.Port (AiGatewayTypes.Spec g)) 0) as [E|E].
    + split.
      * cbn [fst AiGatewayWebhook.ValidateCreate].
        rewrite (gateway_accept_positive v (AiGatewayWebhook.setPort g AiGatewayWebhook.DefaultPort))
          by (simpl; unfold AiGatewayWebhook.DefaultPort; lia).
        simpl. split; [intros (H1 & H2); repeat split; [lia | exact H1 | exact H2]
                      | intros (_ & H1 & H2); split; assumption].
      * unfold AiGatewayWebhook.validateAiGatewaySpec. rewrite E. simpl. discriminate.
    + split; [|reflexivity].
      cbn [fst AiGatewayWebhook.ValidateCreate].
      destruct (Z.lt_trichotomy (AiGatewayTypes.Port (AiGatewayTypes.Spec g)) 0)
        as [Hn | [H0 | Hp]]; [| contradiction |].
      * unfold AiGatewayWebhook.validateAiGatewaySpec.
        destruct (Z.leb_spec (AiGatewayTypes.Port (AiGatewayTypes.Spec g)) 0)
          as [Hle|Hgt]; [|lia].
        split; [discriminate | intros (H & _); lia].
      * rewrite (gateway_accept_positive v g Hp).
        split; [intros (H1 & H2); repeat split; [lia | exact H1 | exact H2]
               | intros (_ & H1 & H2); split; assumption].
  - intros d v ctx r. cbn [ModelRouterWebhook.Default ModelRouterWebhook.ValidateCreate fst].
    destruct (String.eqb_spec (ModelRouterTypes.Type_ (ModelRouterTypes.Spec r)) "")
      as [Ht|Ht].
    { split.
      - destruct (ModelRouterTypes.Port (ModelRouterTypes.Spec r) =? 0);
          cbn [fst ModelRouterWebhook.ValidateCreate];
          unfold ModelRouterWebhook.validateModelRouterSpec; simpl; rewrite Ht; simpl;
          (split; [discriminate | intros (H & _); contradiction]).
      - unfold ModelRouterWebhook.validateModelRouterSpec. rewrite Ht. simpl. discriminate. }
    destruct (Z.eqb_spec (ModelRouterTypes.Port (ModelRouterTypes.Spec r)) 0) as [E|E].
    + split.
      * cbn [fst ModelRouterWebhook.ValidateCreate].
        rewrite (router_accept_positive v
                   (ModelRouterWebhook.setPort r ModelRouterWebhook.DefaultPort))
          by (simpl; unfold ModelRouterWebhook.DefaultPort; (exact Ht || lia)).
        simpl. split; [intros (H1 & H2); repeat split; [exact Ht | lia | exact H1 | exact H2]
                      | intros (_ & _ & H1 & H2); split; assumption].
      * unfold ModelRouterWebhook.validateModelRouterSpec.
        rewrite (cutFacts.eqb_empty_false _ Ht), E. simpl. discriminate.
    + split; [|reflexivity].
      cbn [fst ModelRouterWebhook.ValidateCreate].
      destruct (Z.lt_trichotomy (ModelRouterTypes.Port (ModelRouterTypes.Spec r)) 0)
        as [Hn | [H0 | Hp]]; [| contradiction |].
      * unfold ModelRouterWebhook.validateModelRouterSpec.
        rewrite (cutFacts.eqb_empty_false _ Ht).
        destruct (Z.leb_spec (ModelRouterTypes.Port (ModelRouterTypes.Spec r)) 0)
          as [Hle|Hgt]; [|lia].
        split; [discriminate | intros (_ & H & _); lia].
      * rewrite (router_accept_positive v r Ht Hp).
        split; [intros (H1 & H2); repeat split; [exact Ht | lia | exact H1 | exact H2]
               | intros (_ & _ & H1 & H2); split; assumption].
Qed.

End InstanceEdges.

Section Warnings.
Variable escapeRune : string -> string * nat.

(** X10. No entry point of the four validators ever returns a warning. *)
Theorem no_warning_is_ever_returned :
  (forall (v : AiGatewayWebhook.AiGatewayCustomValidator) (ctx : context.Context)
      (oldObj obj : runtime.Object),
     (AiGatewayWebhook.ValidateCreate escapeRune v ctx obj).1 = []
     /\ (AiGatewayWebhook.ValidateUpdate escapeRune v ctx oldObj obj).1 = []
     /\ (AiGatewayWebhook.ValidateDelete v ctx obj).1 = [])
  /\ (forall (v : ModelRouterWebhook.ModelRouterCustomValidator) (ctx : context.Context)
        (oldObj obj : runtime.Object),
     (ModelRouterWebhook.ValidateCreate escapeRune v ctx obj).1 = []
     /\ (ModelRouterWebhook.ValidateUpdate escapeRune v ctx oldObj obj).1 = []
     /\ (ModelRouterWebhook.ValidateDelete v ctx obj).1 = [])
  /\ (forall (v : AiGatewayClassWebhook.AiGatewayClassCustomValidator)
        (ctx : context.Context) (oldObj obj : runtime.Object),
     (AiGatewayClassWebhook.ValidateCreate escapeRune v ctx obj).2.1 = []
     /\ (AiGatewayClassWebhook.ValidateUpdate escapeRune v ctx oldObj obj).2.1 = []
     /\ (AiGatewayClassWebhook.ValidateDelete v ctx obj).2.1 = [])
  /\ (forall (v : ModelRouterClassWebhook.ModelRouterClassCustomValidator)
        (ctx : context.Context) (oldObj obj : runtime.Object),
     (ModelRouterClassWebhook.ValidateCreate escapeRune v ctx obj).2.1 = []
     /\ (ModelRouterClassWebhook.ValidateUpdate escapeRune v ctx oldObj obj).2.1 = []
     /\ (ModelRouterClassWebhook.ValidateDelete v ctx obj).2.1 = []).
Proof.
  assert (Hg : forall v g, (AiGatewayWebhook.validateAiGatewaySpec escapeRune v g).1 = []).
  { intros v g. unfold AiGatewayWebhook.validateAiGatewaySpec.
    destruct (_ <=? 0); [reflexivity|]. destruct (Nat.eqb _ 0); [reflexivity|].
    apply gateway_models_warnings. }
  assert (Hr : forall v r, (ModelRouterWebhook.validateModelRouterSpec escapeRune v r).1 = []).
  { intros v r. unfold ModelRouterWebhook.validateModelRouterSpec.
    destruct (String.eqb _ ""); [reflexivity|].
    destruct (_ <=? 0); [reflexivity|]. destruct (Nat.eqb _ 0); [reflexivity|].
    apply router_models_warnings. }
  assert (Ho : forall (A : Type) (meta : A -> metav1.ObjectMeta) key kind ctx c l,
             (classOutcome escapeRune meta key kind ctx c l).2.1 = []).
  { intros A meta key kind ctx c l. unfold classOutcome.
    destruct (marked meta key c); [|reflexivity].
    destruct l as [items|cause]; [|reflexivity]. simpl.
    destruct (firstConflict meta key (metav1.Name (meta c)) items); reflexivity. }
  split; [|split; [|split]]; intros v ctx oldObj obj.
  - destruct obj as [g| | | |T]; repeat split; apply Hg.
  - destruct obj as [| |r| |T]; repeat split; apply Hr.
  - destruct obj as [|c| | |T]; repeat split; simpl; rewrite gatewayClass_outcome; apply Ho.
  - destruct obj as [| | |c|T]; repeat split; simpl; rewrite routerClass_outcome; apply Ho.
Qed.

End Warnings.

(** ** Class kinds *)

Section ScanFurther.
Context {A : Type} (meta : A -> metav1.ObjectMeta) (key : string).

Lemma marked_iff (a b : A) :
  (marksDefault key (meta a) <-> marksDefault key (meta b)) ->
  marked meta key a = marked meta key b.
Proof.
  intros H. destruct (marked meta key a) eqn:Ea, (marked meta key b) eqn:Eb;
    try reflexivity.
  - apply marked_spec, H, marked_spec in Ea. congruence.
  - apply marked_spec, H, marked_spec in Eb. congruence.
Qed.

(** The scan stops at the first conflicting object. *)
Lemma firstConflict_first (name : string) (before after : list A) (e : A) :
  (forall x, In x before -> ~ conflictsWith meta key name x) ->
  conflictsWith meta key name e ->
  firstConflict meta key name (before ++ e :: after) = Some e.
Proof.
  intros Hb [Hn Hm]. induction before as [|x before IH]; simpl.
  - unfold metav1.GetName. apply String.eqb_neq in Hn. rewrite Hn.
    apply marked_spec in Hm. rewrite Hm. reflexivity.
  - unfold metav1.GetName.
    destruct (String.eqb_spec (metav1.Name (meta x)) name) as [Hx|Hx].
    + apply IH. intros y Hy. apply Hb. right. exact Hy.
    + destruct (marked meta key x) eqn:Ex.
      * exfalso. apply (Hb x (or_introl eq_refl)). split; [exact Hx|].
        apply marked_spec. exact Ex.
      * apply IH. intros y Hy. apply Hb. right. exact Hy.
Qed.

Lemma firstConflict_exists (name : string) (items : list A) :
  (exists e, firstConflict meta key name items = Some e)
  <-> exists e, In e items /\ conflictsWith meta key name e.
Proof.
  split.
  - intros (e & H). exists e. exact (firstConflict_Some meta key _ _ _ H).
  - intros (e & Hin & Hc).
    destruct (firstConflict meta key name items) as [x|] eqn:F; [exists x; reflexivity|].
    exfalso. exact (firstConflict_None meta key _ _ F e Hin Hc).
Qed.

(** Of the listed objects the scan reads the names and the marks only. *)
Lemma firstConflict_alike (name : string) (items items' : list A) :
  Forall2 (fun x y => metav1.Name (meta x) = metav1.Name (meta y)
                      /\ (marksDefault key (meta x) <-> marksDefault key (meta y)))
    items items' ->
  option_map (fun e => metav1.Name (meta e)) (firstConflict meta key name items)
  = option_map (fun e => metav1.Name (meta e)) (firstConflict meta key name items').
Proof.
  induction 1 as [|x y items items' [Hn Hm] _ IH]; [reflexivity|].
  simpl. unfold metav1.GetName. rewrite <- Hn, <- (marked_iff x y Hm).
  destruct (String.eqb (metav1.Name (meta x)) name); [exact IH|].
  destruct (marked meta key x); [simpl; rewrite Hn; reflexivity | exact IH].
Qed.

Variable escapeRune : string -> string * nat.
Variable kind : string.

Lemma outcome_calls (ctx : context.Context) (c : A) (l : client.ListResult A) :
  (classOutcome escapeRune meta key kind ctx c l).1
  = if marked meta key c then [client.ListCall ctx] else [].
Proof.
  unfold classOutcome. destruct (marked meta key c); [|reflexivity].
  destruct l; reflexivity.
Qed.

Lemma outcome_first (ctx : context.Context) (c e : A) (before after : list A) :
  marksDefault key (meta c) ->
  (forall x, In x before -> ~ conflictsWith meta key (metav1.Name (meta c)) x) ->
  conflictsWith meta key (metav1.Name (meta c)) e ->
  classOutcome escapeRune meta key kind ctx c (client.Listed (before ++ e :: after))
  = ([client.ListCall ctx],
     ([], Some (Aggregate [conflictError key kind (metav1.Name (meta e))]))).
Proof.
  intros Hc Hb He. unfold classOutcome. apply marked_spec in Hc. rewrite Hc.
  rewrite (firstConflict_first _ before after e Hb He). reflexivity.
Qed.

Lemma outcome_rejected_iff (ctx : context.Context) (c : A) (items : list A) :
  (exists err, (classOutcome escapeRune meta key kind ctx c (client.Listed items)).2.2
               = Some err)
  <-> marksDefault key (meta c)
      /\ exists e, In e items /\ conflictsWith meta key (metav1.Name (meta c)) e.
Proof.
  split.
  - intros (err & H).
    destruct (outcome_rejected escapeRune meta key kind ctx c items err H)
      as (Hc & e & Hin & He & _).
    split; [exact Hc|]. exists e. auto.
  - intros (Hc & e & Hin & He).
    pose proof (outcome_conflict escapeRune meta key kind ctx c items e Hc Hin He) as Hne.
    destruct (classOutcome escapeRune meta key kind ctx c (client.Listed items)).2.2
      as [err|]; [exists err; reflexivity | contradiction].
Qed.

Lemma outcome_candidate (ctx : context.Context) (c c' : A) (l : client.ListResult A) :
  metav1.Name (meta c) = metav1.Name (meta c') ->
  (marksDefault key (meta c) <-> marksDefault key (meta c')) ->
  classOutcome escapeRune meta key kind ctx c l
  = classOutcome escapeRune meta key kind ctx c' l.
Proof.
  intros Hn Hm. unfold classOutcome. rewrite Hn, (marked_iff c c' Hm). reflexivity.
Qed.

Lemma outcome_alike (ctx : context.Context) (c : A) (items items' : list A) :
  Forall2 (fun x y => metav1.Name (meta x) = metav1.Name (meta y)
                      /\ (marksDefault key (meta x) <-> marksDefault key (meta y)))
    items items' ->
  classOutcome escapeRune meta key kind ctx c (client.Listed items)
  = classOutcome escapeRune meta key kind ctx c (client.Listed items').
Proof.
  intros H. unfold classOutcome.
  pose proof (firstConflict_alike (metav1.Name (meta c)) items items' H) as E.
  destruct (firstConflict meta key (metav1.Name (meta c)) items) as [x|],
           (firstConflict meta key (metav1.Name (meta c)) items') as [y|];
    simpl in E; try discriminate; [|reflexivity].
  injection E as ->. reflexivity.
Qed.

End ScanFurther.

Section ClassFurther.
Variable escapeRune : string -> string * nat.

(** X11. A class validation makes at most one call on its client: one
    listing when the candidate is marked as the default, whether the
    listing succeeds or fails and whatever it holds, and none when the
    candidate is not marked. *)
Theorem one_listing_for_a_marked_candidate :
  (forall (v : AiGatewayClassWebhook.AiGatewayClassCustomValidator) (ctx : context.Context)
      (c : AiGatewayClassTypes.AiGatewayClass),
     (marksDefault AiGatewayClassWebhook.DefaultClassAnnotation
        (AiGatewayClassTypes.ObjectMeta c) ->
      (AiGatewayClassWebhook.validateAiGatewayClass escapeRune v ctx c).1
      = [client.ListCall ctx])
     /\ (~ marksDefault AiGatewayClassWebhook.DefaultClassAnnotation
             (AiGatewayClassTypes.ObjectMeta c) ->
         (AiGatewayClassWebhook.validateAiGatewayClass escapeRune v ctx c).1 = []))
  /\ (forall (v : ModelRouterClassWebhook.ModelRouterClassCustomValidator)
        (ctx : context.Context) (c : ModelRouterClassTypes.ModelRouterClass),
     (marksDefault ModelRouterClassWebhook.DefaultClassAnnotation
        (ModelRouterClassTypes.ObjectMeta c) ->
      (ModelRouterClassWebhook.validateModelRouterClass escapeRune v ctx c).1
      = [client.ListCall ctx])
     /\ (~ marksDefault ModelRouterClassWebhook.DefaultClassAnnotation
             (ModelRouterClassTypes.ObjectMeta c) ->
         (ModelRouterClassWebhook.validateModelRouterClass escapeRune v ctx c).1 = [])).
Proof.
  split; intros v ctx c.
  - rewrite gatewayClass_outcome, outcome_calls.
    destruct (marked _ _ c) eqn:E.
    + split; [reflexivity|]. intros H. apply marked_spec in E. contradiction.
    + split; [|reflexivity]. intros H. apply marked_spec in H. congruence.
  - rewrite routerClass_outcome, outcome_calls.
    destruct (marked _ _ c) eqn:E.
    + split; [reflexivity|]. intros H. apply marked_spec in E. contradiction.
    + split; [|reflexivity]. intros H. apply marked_spec in H. congruence.
Qed.

(** X12. The conflict reported is the first in the order of the listing:
    when the objects listed before a conflicting object [e] do not
    conflict, the error is the one field error on the annotation of the
    candidate, with the value "true" and a detail that names [e], whatever
    is listed after [e]. *)
Theorem first_conflict_is_reported :
  (forall (v : AiGatewayClassWebhook.AiGatewayClassCustomValidator) (ctx : context.Context)
      (c e : AiGatewayClassTypes.AiGatewayClass)
      (before after : list AiGatewayClassTypes.AiGatewayClass),
     marksDefault AiGatewayClassWebhook.DefaultClassAnnotation
       (AiGatewayClassTypes.ObjectMeta c) ->
     client.List (AiGatewayClassWebhook.Client v) ctx
     = client.Listed (before ++ e :: after) ->
     (forall x, In x before ->
        ~ conflictsWith AiGatewayClassTypes.ObjectMeta
            AiGatewayClassWebhook.DefaultClassAnnotation
            (metav1.Name (AiGatewayClassTypes.ObjectMeta c)) x) ->
     conflictsWith AiGatewayClassTypes.ObjectMeta
       AiGatewayClassWebhook.DefaultClassAnnotation
       (metav1.Name (AiGatewayClassTypes.ObjectMeta c)) e ->
     AiGatewayClassWebhook.validateAiGatewayClass escapeRune v ctx c
     = ([client.ListCall ctx],
        ([], Some (Aggregate
           [field.Invalid
              (field.Key (field.Child (field.Root "metadata") "annotations")
                 "aigateway.kubernetes.io/is-default-class")
              "true"
              ("another AiGatewayClass '"
               +:+ metav1.Name (AiGatewayClassTypes.ObjectMeta e)
               +:+ "' already has the default class annotation set to 'true'. Only one AiGatewayClass can be marked as default")]))))
  /\ (forall (v : ModelRouterClassWebhook.ModelRouterClassCustomValidator)
        (ctx : context.Context) (c e : ModelRouterClassTypes.ModelRouterClass)
        (before after : list ModelRouterClassTypes.ModelRouterClass),
     marksDefault ModelRouterClassWebhook.DefaultClassAnnotation
       (ModelRouterClassTypes.ObjectMeta c) ->
     client.List (ModelRouterClassWebhook.Client v) ctx
     = client.Listed (before ++ e :: after) ->
     (forall x, In x before ->
        ~ conflictsWith ModelRouterClassTypes.ObjectMeta
            ModelRouterClassWebhook.DefaultClassAnnotation
            (metav1.Name (ModelRouterClassTypes.ObjectMeta c)) x) ->
     conflictsWith ModelRouterClassTypes.ObjectMeta
       ModelRouterClassWebhook.DefaultClassAnnotation
       (metav1.Name (ModelRouterClassTypes.ObjectMeta c)) e ->
     ModelRouterClassWebhook.validateModelRouterClass escapeRune v ctx c
     = ([client.ListCall ctx],
        ([], Some (Aggregate
           [field.Invalid
              (field.Key (field.Child (field.Root "metadata") "annotations")
                 "modelrouter.kubernetes.io/is-default-class")
              "true"
              ("another ModelRouterClass '"
               +:+ metav1.Name (ModelRouterClassTypes.ObjectMeta e)
               +:+ "' already has the default class annotation set to 'true'. Only one ModelRouterClass can be marked as default")])))).
Proof.
  split; intros v ctx c e before after Hc Hl Hb He.
  - rewrite gatewayClass_outcome, Hl.
    rewrite (outcome_first _ _ escapeRune "AiGatewayClass" ctx c e before after Hc Hb He).
    reflexivity.
  - rewrite routerClass_outcome, Hl.
    rewrite (outcome_first _ _ escapeRune "ModelRouterClass" ctx c e before after Hc Hb He).
    reflexivity.
Qed.

(** X13. Whether a candidate is rejected depends on which objects are
    listed, not on their order or number: when every object of one listing
    occurs in another, a rejection with the first is a rejection with the
    second. *)
Theorem rejection_grows_with_the_listing :
  (forall (v v' : AiGatewayClassWebhook.AiGatewayClassCustomValidator)
      (ctx : context.Context) (c : AiGatewayClassTypes.AiGatewayClass)
      (items items' : list AiGatewayClassTypes.AiGatewayClass),
     client.List (AiGatewayClassWebhook.Client v) ctx = client.Listed items ->
     client.List (AiGatewayClassWebhook.Client v') ctx = client.Listed items' ->
     (forall x, In x items -> In x items') ->
     (exists err, (AiGatewayClassWebhook.validateAiGatewayClass escapeRune v ctx c).2.2
                  = Some err) ->
     exists err', (AiGatewayClassWebhook.validateAiGatewayClass escapeRune v' ctx c).2.2
                  = Some err')
  /\ (forall (v v' : ModelRouterClassWebhook.ModelRouterClassCustomValidator)
        (ctx : context.Context) (c : ModelRouterClassTypes.ModelRouterClass)
        (items items' : list ModelRouterClassTypes.ModelRouterClass),
     client.List (ModelRouterClassWebhook.Client v) ctx = client.Listed items ->
     client.List (ModelRouterClassWebhook.Client v') ctx = client.Listed items' ->
     (forall x, In x items -> In x items') ->
     (exists err, (ModelRouterClassWebhook.validateModelRouterClass escapeRune v ctx c).2.2
                  = Some err) ->
     exists err', (ModelRouterClassWebhook.validateModelRouterClass escapeRune v' ctx c).2.2
                  = Some err').
Proof.
  split; intros v v' ctx c items items' Hl Hl' Hsub.
  - rewrite !gatewayClass_outcome, Hl, Hl', !outcome_rejected_iff.
    intros (Hc & e & Hin & He). split; [exact Hc|]. exists e. auto.
  - rewrite !routerClass_outcome, Hl, Hl', !outcome_rejected_iff.
    intros (Hc & e & Hin & He). split; [exact Hc|]. exists e. auto.
Qed.

(** X14. Of the candidate a class validation reads the name and whether
    the annotations mark it as the default, and nothing else: two
    candidates that agree on these get the same result from the same
    validator, whatever their controller, namespace and other
    annotations. *)
Theorem class_validation_reads_name_and_mark :
  (forall (v : AiGatewayClassWebhook.AiGatewayClassCustomValidator) (ctx : context.Context)
      (c c' : AiGatewayClassTypes.AiGatewayClass),
     metav1.Name (AiGatewayClassTypes.ObjectMeta c)
     = metav1.Name (AiGatewayClassTypes.ObjectMeta c') ->
     (marksDefault AiGatewayClassWebhook.DefaultClassAnnotation
        (AiGatewayClassTypes.ObjectMeta c)
      <-> marksDefault AiGatewayClassWebhook.DefaultClassAnnotation
            (AiGatewayClassTypes.ObjectMeta c')) ->
     AiGatewayClassWebhook.validateAiGatewayClass escapeRune v ctx c
     = AiGatewayClassWebhook.validateAiGatewayClass escapeRune v ctx c')
  /\ (forall (v : ModelRouterClassWebhook.ModelRouterClassCustomValidator)
        (ctx : context.Context) (c c' : ModelRouterClassTypes.ModelRouterClass),
     metav1.Name (ModelRouterClassTypes.ObjectMeta c)
     = metav1.Name (ModelRouterClassTypes.ObjectMeta c') ->
     (marksDefault ModelRouterClassWebhook.DefaultClassAnnotation
        (ModelRouterClassTypes.ObjectMeta c)
      <-> marksDefault ModelRouterClassWebhook.DefaultClassAnnotation
            (ModelRouterClassTypes.ObjectMeta c')) ->
     ModelRouterClassWebhook.validateModelRouterClass escapeRune v ctx c
     = ModelRouterClassWebhook.validateModelRouterClass escapeRune v ctx c').
Proof.
  split; intros v ctx c c' Hn Hm.
  - rewrite !gatewayClass_outcome. apply outcome_candidate; assumption.
  - rewrite !routerClass_outcome. apply outcome_candidate; assumption.
Qed.

(** X15. Of the listed objects a class validation reads the names and
    whether the annotations mark them as the default, and nothing else: two
    listings that agree on these, object by object, give the same result.
    The namespace of a listed object plays no part. *)
Theorem listing_read_by_name_and_mark :
  (forall (v v' : AiGatewayClassWebhook.AiGatewayClassCustomValidator)
      (ctx : context.Context) (c : AiGatewayClassTypes.AiGatewayClass)
      (items items' : list AiGatewayClassTypes.AiGatewayClass),
     client.List (AiGatewayClassWebhook.Client v) ctx = client.Listed items ->
     client.List (AiGatewayClassWebhook.Client v') ctx = client.Listed items' ->
     Forall2 (fun x y =>
                metav1.Name (AiGatewayClassTypes.ObjectMeta x)
                = metav1.Name (AiGatewayClassTypes.ObjectMeta y)
                /\ (marksDefault AiGatewayClassWebhook.DefaultClassAnnotation
                      (AiGatewayClassTypes.ObjectMeta x)
                    <-> marksDefault AiGatewayClassWebhook.DefaultClassAnnotation
                          (AiGatewayClassTypes.ObjectMeta y)))
       items items' ->
     AiGatewayClassWebhook.validateAiGatewayClass escapeRune v ctx c
     = AiGatewayClassWebhook.validateAiGatewayClass escapeRune v' ctx c)
  /\ (forall (v v' : ModelRouterClassWebhook.ModelRouterClassCustomValidator)
        (ctx : context.Context) (c : ModelRouterClassTypes.ModelRouterClass)
        (items items' : list ModelRouterClassTypes.ModelRouterClass),
     client.List (ModelRouterClassWebhook.Client v) ctx = client.Listed items ->
     client.List (ModelRouterClassWebhook.Client v') ctx = client.Listed items' ->
     Forall2 (fun x y =>
                metav1.Name (ModelRouterClassTypes.ObjectMeta x)
                = metav1.Name (ModelRouterClassTypes.ObjectMeta y)
                /\ (marksDefault ModelRouterClassWebhook.DefaultClassAnnotation
                      (ModelRouterClassTypes.ObjectMeta x)
                    <-> marksDefault ModelRouterClassWebhook.DefaultClassAnnotation
                          (ModelRouterClassTypes.ObjectMeta y)))
       items items' ->
     ModelRouterClassWebhook.validateModelRouterClass escapeRune v ctx c
     = ModelRouterClassWebhook.validateModelRouterClass escapeRune v' ctx c).
Proof.
  split; intros v v' ctx c items items' Hl Hl' H.
  - rewrite !gatewayClass_outcome, Hl, Hl'. apply outcome_alike. exact H.
  - rewrite !routerClass_outcome, Hl, Hl'. apply outcome_alike. exact H.
Qed.

End ClassFurther.

(** ** The further properties at concrete inputs *)

Lemma isDefault_marks (key name : string) :
  marksDefault key (Examples.meta name (Examples.isDefault key)).
Proof.
  exists {[ key := "true" ]}. split; [reflexivity | apply lookup_singleton_eq].
Qed.

Lemma no_annotations_unmarked (key name : string) :
  ~ marksDefault key (Examples.meta name None).
Proof. intros (entries & H & _). discriminate H. Qed.

(** X1 at the name openai/gpt-4. *)
Lemma Cut_round_trip_witness :
  "/" <> ""
  /\ strings.Cut "openai/gpt-4" "/" = ("openai", "gpt-4", true)
  /\ strings.Contains (strings.Cut "openai/gpt-4" "/").1.1 "/" = false.
Proof.
  assert (Hne : "/" <> "") by discriminate.
  split; [exact Hne|]. split; [reflexivity|].
  destruct (Cut_round_trip "openai/gpt-4" "/") as [(_ & _ & H) | (Hf & _)].
  - exact (H Hne).
  - discriminate Hf.
Defined.

(** X4 at two gateways that differ in the provider of their model. *)
Lemma gateway_validation_reads_port_and_names_witness :
  map AiGatewayTypes.Name
    [{| AiGatewayTypes.Name := "openai/gpt-4"; AiGatewayTypes.Provider := "openai" |}]
  = map AiGatewayTypes.Name
      [{| AiGatewayTypes.Name := "openai/gpt-4"; AiGatewayTypes.Provider := "" |}]
  /\ AiGatewayWebhook.validateAiGatewaySpec escapeInvalid
       AiGatewayWebhook.Build_AiGatewayCustomValidator
       (Examples.gateway 4000
          [{| AiGatewayTypes.Name := "openai/gpt-4"; AiGatewayTypes.Provider := "openai" |}])
     = AiGatewayWebhook.validateAiGatewaySpec escapeInvalid
         AiGatewayWebhook.Build_AiGatewayCustomValidator
         (Examples.gateway 4000
            [{| AiGatewayTypes.Name := "openai/gpt-4"; AiGatewayTypes.Provider := "" |}]).
Proof.
  split; [reflexivity|].
  apply gateway_validation_reads_port_and_names; reflexivity.
Defined.

(** X5 at a gateway and a router without models. *)
Lemma empty_model_list_rejected_witness :
  (0 < 4000
   /\ AiGatewayWebhook.validateAiGatewaySpec escapeInvalid
        AiGatewayWebhook.Build_AiGatewayCustomValidator (Examples.gateway 4000 [])
      = ([], Some (errors.New "no AI models specified in AiGateway")))
  /\ ("litellm" <> ""
      /\ ModelRouterWebhook.validateModelRouterSpec escapeInvalid
           ModelRouterWebhook.Build_ModelRouterCustomValidator
           (Examples.router "litellm" 4000 [])
         = ([], Some (errors.New "no AI models specified in ModelRouter"))).
Proof.
  pose proof (empty_model_list_rejected escapeInvalid) as (Hg & Hr).
  assert (Hp : 0 < 4000) by lia.
  assert (Hn : "litellm" <> "") by discriminate.
  split.
  - split; [exact Hp|].
    exact (proj2 (Hg AiGatewayWebhook.Build_AiGatewayCustomValidator
                     (Examples.gateway 4000 []) eq_refl) Hp).
  - split; [exact Hn|].
    exact (proj2 (Hr ModelRouterWebhook.Build_ModelRouterCustomValidator
                     (Examples.router "litellm" 4000 []) eq_refl) Hn Hp).
Defined.

(** X6 at a router whose port is not set. *)
Lemma validation_after_Default_witness :
  ("litellm" <> "" /\ 0 <= 0)
  /\ (ModelRouterWebhook.ValidateCreate escapeInvalid
        ModelRouterWebhook.Build_ModelRouterCustomValidator context.Background
        (ModelRouterWebhook.Default ModelRouterWebhook.Build_ModelRouterCustomDefaulter
           context.Background
           (runtime.ModelRouter (Examples.router "litellm" 0 ["openai/gpt-4"]))).1).2
     = None.
Proof.
  assert (Hn : "litellm" <> "") by discriminate.
  assert (Hp : 0 <= 0) by lia.
  split; [exact (conj Hn Hp)|].
  apply (proj1 (proj2 (validation_after_Default escapeInvalid)
                  ModelRouterWebhook.Build_ModelRouterCustomDefaulter
                  ModelRouterWebhook.Build_ModelRouterCustomValidator context.Background
                  (Examples.router "litellm" 0 ["openai/gpt-4"]))).
  split; [exact Hn|]. split; [exact Hp|]. split; [discriminate|].
  constructor; [|constructor].
  exists "openai", "gpt-4". repeat split; (reflexivity || discriminate).
Defined.

(** X11 at a marked candidate whose listing fails, and at a plain one. *)
Lemma one_listing_for_a_marked_candidate_witness :
  (AiGatewayClassWebhook.validateAiGatewayClass escapeInvalid
     (AiGatewayClassWebhook.Build_AiGatewayClassCustomValidator
        (Examples.failing (errors.New "connection refused")))
     context.Background
     (Examples.gatewayClass "A"
        (Examples.isDefault AiGatewayClassWebhook.DefaultClassAnnotation))).1
  = [client.ListCall context.Background]
  /\ (AiGatewayClassWebhook.validateAiGatewayClass escapeInvalid
        (AiGatewayClassWebhook.Build_AiGatewayClassCustomValidator
           (Examples.failing (errors.New "connection refused")))
        context.Background (Examples.gatewayClass "B" None)).1
     = [].
Proof.
  pose proof (proj1 (one_listing_for_a_marked_candidate escapeInvalid)) as H.
  split.
  - apply (proj1 (H _ context.Background
                    (Examples.gatewayClass "A"
                       (Examples.isDefault AiGatewayClassWebhook.DefaultClassAnnotation)))).
    apply isDefault_marks.
  - apply (proj2 (H _ context.Background (Examples.gatewayClass "B" None))).
    apply no_annotations_unmarked.
Defined.

(** X12 at a default candidate C and a listing of a plain class B and the
    default classes A and D, in this order: the error names A. *)
Lemma first_conflict_is_reported_witness :
  ModelRouterClassWebhook.validateModelRouterClass escapeInvalid
    (ModelRouterClassWebhook.Build_ModelRouterClassCustomValidator
       (Examples.listing
          [Examples.routerClass "B" None;
           Examples.routerClass "A"
             (Examples.isDefault ModelRouterClassWebhook.DefaultClassAnnotation);
           Examples.routerClass "D"
             (Examples.isDefault ModelRouterClassWebhook.DefaultClassAnnotation)]))
    context.Background
    (Examples.routerClass "C"
       (Examples.isDefault ModelRouterClassWebhook.DefaultClassAnnotation))
  = ([client.ListCall context.Background],
     ([], Some (Aggregate
        [conflictError ModelRouterClassWebhook.DefaultClassAnnotation
           "ModelRouterClass" "A"]))).
Proof.
  apply (proj2 (first_conflict_is_reported escapeInvalid) _ context.Background
           (Examples.routerClass "C"
              (Examples.isDefault ModelRouterClassWebhook.DefaultClassAnnotation))
           (Examples.routerClass "A"
              (Examples.isDefault ModelRouterClassWebhook.DefaultClassAnnotation))
           [Examples.routerClass "B" None]
           [Examples.routerClass "D"
              (Examples.isDefault ModelRouterClassWebhook.DefaultClassAnnotation)]).
  - apply isDefault_marks.
  - reflexivity.
  - intros x [<-|[]] [_ Hm]. exact (no_annotations_unmarked _ _ Hm).
  - split; [discriminate | apply isDefault_marks].
Defined.

(** X13 at a listing of the default class A, and a longer listing that
    holds A twice after a plain class. *)
Lemma rejection_grows_with_the_listing_witness :
  exists err,
    (AiGatewayClassWebhook.validateAiGatewayClass escapeInvalid
       (AiGatewayClassWebhook.Build_AiGatewayClassCustomValidator
          (Examples.listing
             [Examples.gatewayClass "B" None;
              Examples.gatewayClass "A"
                (Examples.isDefault AiGatewayClassWebhook.DefaultClassAnnotation);
              Examples.gatewayClass "A"
                (Examples.isDefault AiGatewayClassWebhook.DefaultClassAnnotation)]))
       context.Background
       (Examples.gatewayClass "C"
          (Examples.isDefault AiGatewayClassWebhook.DefaultClassAnnotation))).2.2
    = Some err.
Proof.
  apply (proj1 (rejection_grows_with_the_listing escapeInvalid)
           (AiGatewayClassWebhook.Build_AiGatewayClassCustomValidator
              (Examples.listing
                 [Examples.gatewayClass "A"
                    (Examples.isDefault AiGatewayClassWebhook.DefaultClassAnnotation)]))
           _ context.Background _
           [Examples.gatewayClass "A"
              (Examples.isDefault AiGatewayClassWebhook.DefaultClassAnnotation)]
           [Examples.gatewayClass "B" None;
            Examples.gatewayClass "A"
              (Examples.isDefault AiGatewayClassWebhook.DefaultClassAnnotation);
            Examples.gatewayClass "A"
              (Examples.isDefault AiGatewayClassWebhook.DefaultClassAnnotation)]).
  - reflexivity.
  - reflexivity.
  - intros x [<-|[]]. right. left. reflexivity.
  - eexists. reflexivity.
Defined.

(** X14 at two default candidates named C that differ in their namespace
    and controller. *)
Lemma class_validation_reads_name_and_mark_witness :
  AiGatewayClassWebhook.validateAiGatewayClass escapeInvalid
    (AiGatewayClassWebhook.Build_AiGatewayClassCustomValidator
       (Examples.listing
          [Examples.gatewayClass "A"
             (Examples.isDefault AiGatewayClassWebhook.DefaultClassAnnotation)]))
    context.Background
    (Examples.gatewayClass "C"
       (Examples.isDefault AiGatewayClassWebhook.DefaultClassAnnotation))
  = AiGatewayClassWebhook.validateAiGatewayClass escapeInvalid
      (AiGatewayClassWebhook.Build_AiGatewayClassCustomValidator
         (Examples.listing
            [Examples.gatewayClass "A"
               (Examples.isDefault AiGatewayClassWebhook.DefaultClassAnnotation)]))
      context.Background
      {| AiGatewayClassTypes.ObjectMeta :=
           {| metav1.Name := "C";
              metav1.Namespace := "other";
              metav1.Annotations :=
                Examples.isDefault AiGatewayClassWebhook.DefaultClassAnnotation |};
         AiGatewayClassTypes.Spec := {| AiGatewayClassTypes.Controller := "" |} |}.
Proof.
  apply (proj1 (class_validation_reads_name_and_mark escapeInvalid)).
  - reflexivity.
  - split; intros _; apply (isDefault_marks _ "C").
Defined.

(** X15 at two listings of a default class A, in two namespaces. *)
Lemma listing_read_by_name_and_mark_witness :
  AiGatewayClassWebhook.validateAiGatewayClass escapeInvalid
    (AiGatewayClassWebhook.Build_AiGatewayClassCustomValidator
       (Examples.listing
          [Examples.gatewayClass "A"
             (Examples.isDefault AiGatewayClassWebhook.DefaultClassAnnotation)]))
    context.Background
    (Examples.gatewayClass "C"
       (Examples.isDefault AiGatewayClassWebhook.DefaultClassAnnotation))
  = AiGatewayClassWebhook.validateAiGatewayClass escapeInvalid
      (AiGatewayClassWebhook.Build_AiGatewayClassCustomValidator
         (Examples.listing
            [{| AiGatewayClassTypes.ObjectMeta :=
                  {| metav1.Name := "A";
                     metav1.Namespace := "other";
                     metav1.Annotations :=
                       Examples.isDefault AiGatewayClassWebhook.DefaultClassAnnotation |};
                AiGatewayClassTypes.Spec := {| AiGatewayClassTypes.Controller := "" |} |}]))
      context.Background
      (Examples.gatewayClass "C"
         (Examples.isDefault AiGatewayClassWebhook.DefaultClassAnnotation)).
Proof.
  apply (proj1 (listing_read_by_name_and_mark escapeInvalid) _ _ context.Background _
           [Examples.gatewayClass "A"
              (Examples.isDefault AiGatewayClassWebhook.DefaultClassAnnotation)]
           [{| AiGatewayClassTypes.ObjectMeta :=
                 {| metav1.Name := "A";
                    metav1.Namespace := "other";
                    metav1.Annotations :=
                      Examples.isDefault AiGatewayClassWebhook.DefaultClassAnnotation |};
               AiGatewayClassTypes.Spec := {| AiGatewayClassTypes.Controller := "" |} |}]).
  - reflexivity.
  - reflexivity.
  - constructor; [|constructor]. split; [reflexivity|].
    split; intros _; apply (isDefault_marks _ "A").
Defined.

(** X2 at a router with one well-formed model. *)
Lemma router_accepted_iff_witness :
  (ModelRouterWebhook.validateModelRouterSpec escapeInvalid
     ModelRouterWebhook.Build_ModelRouterCustomValidator
     (Examples.router "litellm" 4000 ["openai/gpt-4"])).2
  = None.
Proof.
  apply (proj2 (router_accepted_iff escapeInvalid
                  ModelRouterWebhook.Build_ModelRouterCustomValidator
                  (Examples.router "litellm" 4000 ["openai/gpt-4"]))).
  split; [discriminate|]. split; [reflexivity|]. split; [discriminate|].
  constructor; [|constructor].
  exists "openai", "gpt-4". repeat split; (reflexivity || discriminate).
Defined.

(** X3 at a gateway with one well-formed model name and no provider. *)
Lemma gateway_accepted_iff_witness :
  (AiGatewayWebhook.validateAiGatewaySpec escapeInvalid
     AiGatewayWebhook.Build_AiGatewayCustomValidator
     (Examples.gateway 4000
        [{| AiGatewayTypes.Name := "openai/gpt-4"; AiGatewayTypes.Provider := "" |}])).2
  = None.
Proof.
  apply (proj2 (gateway_accepted_iff escapeInvalid
                  AiGatewayWebhook.Build_AiGatewayCustomValidator
                  (Examples.gateway 4000
                     [{| AiGatewayTypes.Name := "openai/gpt-4";
                         AiGatewayTypes.Provider := "" |}]))).
  split; [reflexivity|]. split; [discriminate|].
  constructor; [|constructor].
  exists "openai", "gpt-4". repeat split; (reflexivity || discriminate).
Defined.

(** ** Names of the router's models *)

Section RouterNames.
Variable escapeRune : string -> string * nat.



Lemma plain_printedAsIs (fuel : nat) (s : string) :
  plain s = true -> (String.length s <= fuel)%nat ->
  printedAsIs escapeRune fuel s = true.
Proof.
  revert s. induction fuel as [|fuel IH]; intros s Hp Hf.
  - destruct s; [reflexivity | simpl in Hf; lia].
  - destruct s as [|c s]; [reflexivity|]. simpl in Hp, Hf.
    apply andb_prop in Hp as [Hc Hs]. cbn [printedAsIs].
    rewrite (strconvFacts.plainRune_ascii c Hc), Hc. apply IH; [exact Hs | lia].
Qed.

(** A name of plain ASCII characters is printed as it is. *)
Lemma plain_printedLiterally (s : string) :
  plain s = true -> printedLiterally escapeRune s = true.
Proof. intros H. apply plain_printedAsIs; [exact H | lia]. Qed.






End RouterNames.



(** ** The class validators as registered *)

Section RegisteredValidators.
Variable escapeRune : string -> string * nat.

(** With a client in its field the validator is the one studied above. *)
Lemma registered_with_client (c : client.Client ModelRouterClassTypes.ModelRouterClass)
    (ctx : context.Context) (m : ModelRouterClassTypes.ModelRouterClass) :
  Registered.validateModelRouterClass escapeRune {| Registered.Client := Some c |} ctx m =
    Registered.Returns
      (ModelRouterClassWebhook.validateModelRouterClass escapeRune
         {| ModelRouterClassWebhook.Client := c |} ctx m).
Proof.
  unfold Registered.validateModelRouterClass,
    ModelRouterClassWebhook.validateModelRouterClass.
  cbn [Registered.Client ModelRouterClassWebhook.Client].
  destruct (notNil _ && _); [|reflexivity].
  destruct (client.List c ctx); reflexivity.
Qed.

Lemma registered_without_client (ctx : context.Context)
    (m : ModelRouterClassTypes.ModelRouterClass) :
  Registered.validateModelRouterClass escapeRune {| Registered.Client := None |} ctx m =
    if marked ModelRouterClassTypes.ObjectMeta
         ModelRouterClassWebhook.DefaultClassAnnotation m
    then Registered.Panics
    else Registered.Returns ([], ([], None)).
Proof.
  unfold Registered.validateModelRouterClass, marked.
  destruct (notNil _ && _); reflexivity.
Qed.

(** X16. [SetupModelRouterClassWebhookWithManager] registers a validator
    whose client is not set, whatever the manager. On a ModelRouterClass
    marked as the default, ValidateCreate and ValidateUpdate of that
    validator panic at the listing, before any conflict is looked for; on a
    ModelRouterClass that is not marked they accept without a call. With a
    client in the field the two functions return what the validator with
    that client returns, on every object. The AiGatewayClass validator is
    registered with the client of the manager, and on a marked candidate
    its outcome is the one of that client's listing. *)
Theorem registered_router_class_validator_has_no_client :
  forall (mgr : ctrl.Manager) (ctx : context.Context) (oldObj : runtime.Object),
    (forall m : ModelRouterClassTypes.ModelRouterClass,
       marksDefault ModelRouterClassWebhook.DefaultClassAnnotation
         (ModelRouterClassTypes.ObjectMeta m) ->
       Registered.ValidateCreate escapeRune
         (Registered.SetupModelRouterClassWebhookWithManager mgr) ctx
         (runtime.ModelRouterClass m) = Registered.Panics
       /\ Registered.ValidateUpdate escapeRune
            (Registered.SetupModelRouterClassWebhookWithManager mgr) ctx oldObj
            (runtime.ModelRouterClass m) = Registered.Panics)
    /\ (forall m : ModelRouterClassTypes.ModelRouterClass,
          ~ marksDefault ModelRouterClassWebhook.DefaultClassAnnotation
              (ModelRouterClassTypes.ObjectMeta m) ->
          Registered.ValidateCreate escapeRune
            (Registered.SetupModelRouterClassWebhookWithManager mgr) ctx
            (runtime.ModelRouterClass m) = Registered.Returns ([], ([], None))
          /\ Registered.ValidateUpdate escapeRune
               (Registered.SetupModelRouterClassWebhookWithManager mgr) ctx oldObj
               (runtime.ModelRouterClass m) = Registered.Returns ([], ([], None)))
    /\ (forall (c : client.Client ModelRouterClassTypes.ModelRouterClass)
          (obj : runtime.Object),
          Registered.ValidateCreate escapeRune {| Registered.Client := Some c |} ctx obj =
            Registered.Returns
              (ModelRouterClassWebhook.ValidateCreate escapeRune
                 {| ModelRouterClassWebhook.Client := c |} ctx obj)
          /\ Registered.ValidateUpdate escapeRune {| Registered.Client := Some c |}
               ctx oldObj obj =
             Registered.Returns
               (ModelRouterClassWebhook.ValidateUpdate escapeRune
                  {| ModelRouterClassWebhook.Client := c |} ctx oldObj obj))
    /\ (forall g : AiGatewayClassTypes.AiGatewayClass,
          marksDefault AiGatewayClassWebhook.DefaultClassAnnotation
            (AiGatewayClassTypes.ObjectMeta g) ->
          AiGatewayClassWebhook.ValidateCreate escapeRune
            (Registered.SetupAiGatewayClassWebhookWithManager mgr) ctx
            (runtime.AiGatewayClass g) =
            classOutcome escapeRune AiGatewayClassTypes.ObjectMeta
              AiGatewayClassWebhook.DefaultClassAnnotation "AiGatewayClass" ctx g
              (client.List (ctrl.GetClient mgr AiGatewayClassTypes.AiGatewayClass) ctx)
          /\ (AiGatewayClassWebhook.ValidateCreate escapeRune
                (Registered.SetupAiGatewayClassWebhookWithManager mgr) ctx
                (runtime.AiGatewayClass g)).1 = [client.ListCall ctx]).
Proof.
  intros mgr ctx oldObj. split; [|split; [|split]].
  - intros m Hm. apply marked_spec in Hm.
    unfold Registered.ValidateCreate, Registered.ValidateUpdate,
      Registered.SetupModelRouterClassWebhookWithManager.
    rewrite registered_without_client, Hm. split; reflexivity.
  - intros m Hm.
    assert (E : marked ModelRouterClassTypes.ObjectMeta
                  ModelRouterClassWebhook.DefaultClassAnnotation m = false).
    { destruct (marked _ _ m) eqn:E; [|reflexivity].
      exfalso. apply Hm, marked_spec, E. }
    unfold Registered.ValidateCreate, Registered.ValidateUpdate,
      Registered.SetupModelRouterClassWebhookWithManager.
    rewrite registered_without_client, E. split; reflexivity.
  - intros c obj. split; destruct obj; try reflexivity; apply registered_with_client.
  - intros g Hg. apply marked_spec in Hg.
    unfold AiGatewayClassWebhook.ValidateCreate.
    rewrite gatewayClass_outcome.
    split; [reflexivity|].
    unfold classOutcome. rewrite Hg.
    cbn [Registered.SetupAiGatewayClassWebhookWithManager AiGatewayClassWebhook.Client].
    destruct (client.List _ ctx); reflexivity.
Qed.

End RegisteredValidators.

(** X16 at a manager whose client lists nothing: the marked class fast
    makes the registered validator panic, the class fast without
    annotations is accepted. *)
Lemma registered_router_class_validator_has_no_client_witness :
  marksDefault ModelRouterClassWebhook.DefaultClassAnnotation
    (ModelRouterClassTypes.ObjectMeta
       (Examples.routerClass "fast"
          (Examples.isDefault ModelRouterClassWebhook.DefaultClassAnnotation)))
  /\ Registered.ValidateCreate escapeInvalid
       (Registered.SetupModelRouterClassWebhookWithManager
          {| ctrl.GetClient := fun A => Examples.listing [] |})
       context.Background
       (runtime.ModelRouterClass
          (Examples.routerClass "fast"
             (Examples.isDefault ModelRouterClassWebhook.DefaultClassAnnotation)))
     = Registered.Panics
  /\ Registered.ValidateUpdate escapeInvalid
       (Registered.SetupModelRouterClassWebhookWithManager
          {| ctrl.GetClient := fun A => Examples.listing [] |})
       context.Background
       (runtime.ModelRouterClass (Examples.routerClass "fast" None))
       (runtime.ModelRouterClass (Examples.routerClass "fast" None))
     = Registered.Returns ([], ([], None)).
Proof.
  pose proof (registered_router_class_validator_has_no_client escapeInvalid
                {| ctrl.GetClient := fun A => Examples.listing [] |}
                context.Background
                (runtime.ModelRouterClass (Examples.routerClass "fast" None)))
    as (Hpanic & Hfree & _).
  pose proof (isDefault_marks ModelRouterClassWebhook.DefaultClassAnnotation "fast") as Hm.
  split; [exact Hm|].
  split.
  - exact (proj1 (Hpanic (Examples.routerClass "fast"
             (Examples.isDefault ModelRouterClassWebhook.DefaultClassAnnotation)) Hm)).
  - exact (proj2 (Hfree (Examples.routerClass "fast" None)
             (no_annotations_unmarked ModelRouterClassWebhook.DefaultClassAnnotation "fast"))).
Defined.
